(** * Search-It: the enrichment pipeline of [data_processing.py] and [app.py]

    A shallow embedding of the query classifier, the search-result
    preprocessor, the retrying search and extraction clients, the NER
    collapse and the per-entity loop of the dashboard, followed by the
    properties of the specification that are settled on them. *)

From Stdlib Require Import ZArith Ascii String List Lia.
From stdpp Require Import base option list strings gmap.
Import ListNotations.

Set Warnings "-register-all".
Local Open Scope string_scope.
Local Open Scope list_scope.

(** ** Python values and strings *)

Module Py.

(** Python [str] values are modelled as Rocq strings whose characters are
    the code points 0..255. *)

Definition code (c : ascii) : nat := nat_of_ascii c.

(** [str.isspace] on one character: TAB..CR, FS..US, SPACE, NEL, NBSP. *)
Definition is_space (c : ascii) : bool :=
  let n := code c in
  (((9 <=? n) && (n <=? 13)) || ((28 <=? n) && (n <=? 32))
   || (n =? 133) || (n =? 160))%nat.

(** [str.lower] on one character: A..Z and the accented capitals
    U+00C0..U+00DE (the multiplication sign U+00D7 apart) move up by 32. *)
Definition lower_char (c : ascii) : ascii :=
  let n := code c in
  if (((65 <=? n) && (n <=? 90))
      || ((192 <=? n) && (n <=? 222) && negb (n =? 215)))%nat
  then ascii_of_nat (n + 32) else c.

Fixpoint lower (s : string) : string :=
  match s with
  | EmptyString => EmptyString
  | String c s' => String (lower_char c) (lower s')
  end.

Fixpoint lstrip (s : string) : string :=
  match s with
  | EmptyString => EmptyString
  | String c s' => if is_space c then lstrip s' else s
  end.

Fixpoint rstrip (s : string) : string :=
  match s with
  | EmptyString => EmptyString
  | String c s' =>
      match rstrip s' with
      | EmptyString => if is_space c then EmptyString else String c EmptyString
      | r => String c r
      end
  end.

(** [s.strip()] *)
Definition strip (s : string) : string := rstrip (lstrip s).

Fixpoint startswith (sub s : string) : bool :=
  match sub, s with
  | EmptyString, _ => true
  | String a sub', String b s' => Ascii.eqb a b && startswith sub' s'
  | String _ _, EmptyString => false
  end.

(** [sub in s] on two strings. *)
Fixpoint contains (sub s : string) : bool :=
  startswith sub s ||
  match s with
  | EmptyString => false
  | String _ s' => contains sub s'
  end.

(** [sep.join(items)] *)
Fixpoint join (sep : string) (items : list string) : string :=
  match items with
  | [] => EmptyString
  | [x] => x
  | x :: rest => x ++ sep ++ join sep rest
  end.

(** The values that reach the pipeline: what a decoded JSON payload or a
    caller can hand over.  A dict keeps its items in insertion order and
    is looked up by its first matching key. *)
Inductive pyval : Type :=
| VNone
| VBool (b : bool)
| VInt (n : Z)
| VStr (s : string)
| VList (items : list pyval)
| VDict (items : list (string * pyval)).

Definition dict : Type := list (string * pyval).

(** [type(v).__name__] *)
Definition type_name (v : pyval) : string :=
  match v with
  | VNone => "NoneType"
  | VBool _ => "bool"
  | VInt _ => "int"
  | VStr _ => "str"
  | VList _ => "list"
  | VDict _ => "dict"
  end.

(** [bool(v)] *)
Definition truthy (v : pyval) : bool :=
  match v with
  | VNone => false
  | VBool b => b
  | VInt n => negb (n =? 0)%Z
  | VStr s => negb (String.eqb s EmptyString)
  | VList l => match l with [] => false | _ => true end
  | VDict d => match d with [] => false | _ => true end
  end.

Definition isinstance_list (v : pyval) : bool :=
  match v with VList _ => true | _ => false end.

Definition isinstance_dict (v : pyval) : bool :=
  match v with VDict _ => true | _ => false end.

Fixpoint lookup_key (k : string) (d : dict) : option pyval :=
  match d with
  | [] => None
  | (k', v) :: d' => if String.eqb k k' then Some v else lookup_key k d'
  end.

(** [k in d] *)
Definition has_key (k : string) (d : dict) : bool :=
  match lookup_key k d with Some _ => true | None => false end.

(** [d.get(k, default)] *)
Definition get (d : dict) (k : string) (default : pyval) : pyval :=
  match lookup_key k d with Some v => v | None => default end.

(** Exceptions, by class.  [Wrapped prefix e] is
    [Exception(f"{prefix}{e}")]. *)
Inductive exn : Type :=
| AttributeError (type_of attr : string)
| TypeError (msg : string)
| IndexError (msg : string)
| ProviderError (msg : string)
| Wrapped (prefix : string) (cause : exn).

Inductive result (A : Type) : Type :=
| Return (a : A)
| Raise (e : exn).
Arguments Return {A} a.
Arguments Raise {A} e.

Definition rbind {A B} (r : result A) (k : A -> result B) : result B :=
  match r with
  | Return a => k a
  | Raise e => Raise e
  end.

(** [v.strip()] on an arbitrary value: only [str] has the method. *)
Definition strip_method (v : pyval) : result string :=
  match v with
  | VStr s => Return (strip s)
  | _ => Raise (AttributeError (type_name v) "strip")
  end.

(** [[f(x) for x in items]], evaluated from left to right. *)
Fixpoint map_result {A B} (f : A -> result B) (items : list A) : result (list B) :=
  match items with
  | [] => Return []
  | x :: rest =>
      rbind (f x) (fun y => rbind (map_result f rest) (fun ys => Return (y :: ys)))
  end.

Fixpoint chars (s : string) : list pyval :=
  match s with
  | EmptyString => []
  | String c s' => VStr (String c EmptyString) :: chars s'
  end.

(** What [for x in v] runs over: the items of a list, the keys of a
    dict, the characters of a string; other values are not iterable. *)
Definition iterate (v : pyval) : result (list pyval) :=
  match v with
  | VList items => Return items
  | VDict d => Return (map (fun kv => VStr (fst kv)) d)
  | VStr s => Return (chars s)
  | _ => Raise (TypeError (String.append "'" (String.append (type_name v)
                              "' object is not iterable")))
  end.

End Py.

Import Py.

(** ** The outside world: providers, clock and dashboard *)

Module Effects.

(** The parameters [search_entity_info] hands to [GoogleSearch]. *)
Record search_params : Type := SearchParams {
  q : string;
  api_key : option string;
  num : Z;
  hl : string;
  gl : string;
  filter : string
}.

(** The keyword arguments of [client.chat.completions.create]: the
    messages as (role, content) pairs and the model identifier. *)
Record chat_request : Type := ChatRequest {
  messages : list (string * string);
  model : string
}.

(** One span of [doc.ents]. *)
Record ent : Type := Ent { label_ : string; text : string }.

(** What [st.error] is given in [safe_api_call]. *)
Inductive message : Type :=
| AttemptFailed (attempt total : nat) (e : exn)
| AllRetriesFailed.

Inductive event : Type :=
| EvSearch (p : search_params)
| EvChat (r : chat_request)
| EvSleep (seconds : Z)
| EvStError (m : message).

(** The collaborators of the pipeline.  A provider call either raises or
    answers, and moves the world on.  A chat completion answers with the
    [message.content] of each of its choices, which may be [None]. *)
Class Env : Type := {
  World : Type;
  SERP_API_KEY : option string;
  GROQ_API_KEY : option string;
  serp_get_dict : search_params -> World -> result dict * World;
  groq_client : option string -> result unit;
  groq_create : chat_request -> World -> result (list (option string)) * World;
  nlp : string -> list ent
}.

Section Monad.
Context `{E : Env}.

Record state : Type := State { world : World; trace : list event }.

(** Computations that read and move the world, log what they do, and
    return or raise. *)
Definition M (A : Type) : Type := state -> result A * state.

#[export] Instance M_ret : MRet M := fun A a s => (Return a, s).

#[export] Instance M_bind : MBind M := fun A B k m s =>
  match m s with
  | (Return a, s') => k a s'
  | (Raise e, s') => (Raise e, s')
  end.

Definition raise {A} (e : exn) : M A := fun s => (Raise e, s).

Definition lift {A} (r : result A) : M A := fun s => (r, s).

Definition emit (ev : event) : M unit :=
  fun s => (Return tt, {| world := world s; trace := trace s ++ [ev] |}).

(** [try: return body  except Exception as e: handler e] *)
Definition try_except {A} (body : M A) (handler : exn -> M A) : M A :=
  fun s =>
    match body s with
    | (Return a, s') => (Return a, s')
    | (Raise e, s') => handler e s'
    end.

(** [time.sleep(seconds)] *)
Definition sleep (seconds : Z) : M unit := emit (EvSleep seconds).

(** [st.error(...)] *)
Definition st_error (m : message) : M unit := emit (EvStError m).

(** [search.get_dict()] *)
Definition get_dict (p : search_params) : M dict :=
  fun s =>
    let (r, w) := serp_get_dict p (world s) in
    (r, {| world := w; trace := trace s ++ [EvSearch p] |}).

(** [client.chat.completions.create(...)] *)
Definition chat_completions_create (r : chat_request) : M (list (option string)) :=
  fun s =>
    let (o, w) := groq_create r (world s) in
    (o, {| world := w; trace := trace s ++ [EvChat r] |}).

End Monad.

(** [range(n)] *)
Definition range (n : nat) : list nat := seq 0 n.

End Effects.

Import Effects.

(** ** data_processing.py *)

Module DataProcessing.

Definition MAX_RETRIES : nat := 3.
Definition RETRY_DELAY : Z := 2.

Definition nl : string := String (ascii_of_nat 10) EmptyString.
Definition dq : string := String (ascii_of_nat 34) EmptyString.

(** A cleaned search result: the dict literal
    [{"title": ..., "url": ..., "snippet": ...}] of three strings. *)
Record hit : Type := Hit { title : string; url : string; snippet : string }.

Definition hit_dict (h : hit) : pyval :=
  VDict [("title", VStr (title h)); ("url", VStr (url h));
         ("snippet", VStr (snippet h))].

(** *** classify_query *)

Definition classify_query (query : string) : string :=
  let query_lower := lower query in
  if contains "net worth" query_lower then "Net Worth"
  else if contains "age" query_lower || contains "born" query_lower then "Age"
  else if contains "career" query_lower || contains "biography" query_lower then "Biography"
  else if contains "parents" query_lower || contains "family" query_lower then "Family Information"
  else if contains "job" query_lower || contains "career" query_lower then "Career"
  else if contains "education" query_lower || contains "school" query_lower then "Education"
  else if contains "married" query_lower || contains "spouse" query_lower then "Personal Life"
  else if contains "award" query_lower || contains "achievement" query_lower then "Awards & Achievements"
  else if contains "history" query_lower || contains "background" query_lower then "Company Info"
  else if contains "product" query_lower || contains "service" query_lower then "Product Info"
  else if contains "news" query_lower || contains "latest" query_lower then "News"
  else if contains "social media" query_lower || contains "twitter" query_lower
          || contains "instagram" query_lower then "Social Media"
  else if contains "charity" query_lower || contains "philanthropy" query_lower then "Philanthropy"
  else if contains "property" query_lower || contains "real estate" query_lower then "Real Estate"
  else if contains "health" query_lower || contains "condition" query_lower then "Health"
  else if contains "event" query_lower || contains "conference" query_lower then "Events"
  else if contains "fruit" query_lower || contains "vegetable" query_lower then "Fruit"
  else "Miscellaneous".

(** *** preprocess_search_results *)

(** The dict literal of the loop body: its three values are evaluated in
    order, and the first [.strip()] on a value that is not a [str] raises. *)
Definition clean_result (result : dict) : Py.result hit :=
  rbind (strip_method (get result "title" (VStr EmptyString))) (fun t =>
  rbind (strip_method (get result "url" (VStr EmptyString))) (fun u =>
  rbind (strip_method (get result "snippet" (VStr EmptyString))) (fun sn =>
    Return {| title := t; url := u; snippet := sn |}))).

(** [for result in results: if isinstance(result, dict): ...append(...)] *)
Fixpoint preprocess_loop (results : list pyval) (cleaned_results : list hit)
  : Py.result (list hit) :=
  match results with
  | [] => Return cleaned_results
  | result :: rest =>
      match result with
      | VDict d =>
          rbind (clean_result d) (fun cleaned_result =>
            preprocess_loop rest (cleaned_results ++ [cleaned_result]))
      | _ => preprocess_loop rest cleaned_results
      end
  end.

Definition preprocess_search_results (results : pyval) : Py.result (list hit) :=
  if negb (truthy results) || negb (isinstance_list results) then Return []
  else
    match results with
    | VList items => preprocess_loop items []
    | _ => Return []
    end.

(** *** generate_query *)

(** [s.replace("{entity}", entity)]: the occurrences of the placeholder
    are replaced from left to right without overlap; [skip] counts the
    characters of a matched placeholder still to be passed over. *)
Fixpoint replace_placeholder (entity : string) (skip : nat) (s : string) : string :=
  match s with
  | EmptyString => EmptyString
  | String c s' =>
      match skip with
      | S k => replace_placeholder entity k s'
      | O =>
          if startswith "{entity}" s
          then entity ++ replace_placeholder entity 7 s'
          else String c (replace_placeholder entity 0 s')
      end
  end.

Definition generate_query (entity query_template : string) : string :=
  replace_placeholder entity 0 query_template.

Section WithEnv.
Context `{E : Env}.

(** *** search_entity_info *)

Definition search_params_of (entity : string) : search_params :=
  {| q := entity; api_key := SERP_API_KEY; num := 10;
     hl := "en"; gl := "us"; filter := "1" |}.

(** One element of the comprehension: [result.get(...)] needs a dict. *)
Definition organic_hit (result : pyval) : Py.result pyval :=
  match result with
  | VDict d =>
      Return (VDict [("title", get d "title" (VStr "N/A"));
                     ("url", get d "link" (VStr "N/A"));
                     ("snippet", get d "snippet" (VStr "N/A"))])
  | _ => Raise (AttributeError (type_name result) "get")
  end.

(** What the [try] block does with the response of the provider. *)
Definition organic_hits (results : dict) : Py.result (list pyval) :=
  if has_key "organic_results" results
     && truthy (get results "organic_results" VNone)
  then rbind (iterate (get results "organic_results" VNone))
             (map_result organic_hit)
  else Return [].

(** The body of the [try] block. *)
Definition search_attempt (search : search_params) : M (list pyval) :=
  results ← get_dict search;
  lift (organic_hits results).

(** [for attempt in range(MAX_RETRIES): try: ... except Exception as e: ...],
    and the [return []] after the loop. *)
Fixpoint search_loop (search : search_params) (attempts : list nat)
  : M (list pyval) :=
  match attempts with
  | [] => mret []
  | attempt :: rest =>
      try_except (search_attempt search) (fun e =>
        if (attempt <? MAX_RETRIES - 1)%nat
        then sleep (RETRY_DELAY * 2 ^ Z.of_nat attempt)%Z;;
             search_loop search rest
        else raise (Wrapped "Error performing search: " e))
  end.

Definition search_entity_info (entity : string) : M (list pyval) :=
  search_loop (search_params_of entity) (range MAX_RETRIES).

(** *** extract_information_with_groq *)

Definition result_block (result : hit) : string :=
  "Title: " ++ title result ++ nl ++ "URL: " ++ url result ++ nl
  ++ "Snippet: " ++ snippet result.

Definition search_context_of (search_results : list hit) : string :=
  join (nl ++ nl) (map result_block search_results).

Definition prompt_of (query entity query_type search_context : string) : string :=
  nl
  ++ "    Task: Extract the most relevant information for the following query based on the search results." ++ nl
  ++ nl
  ++ "    Query: " ++ dq ++ query ++ dq ++ nl
  ++ "    Entity: " ++ entity ++ nl
  ++ "    Query Type: " ++ query_type ++ nl
  ++ nl
  ++ "    Search Results:" ++ nl
  ++ "    " ++ search_context ++ nl
  ++ nl
  ++ "    Instructions:" ++ nl
  ++ "    - If you find the exact answer, provide it directly in one word." ++ nl
  ++ "    - If relevant information is partially available, summarize the context." ++ nl
  ++ "    - If no relevant information is available, return: " ++ dq ++ "Data not found." ++ dq ++ nl
  ++ "    - Ensure the response is concise and accurate." ++ nl
  ++ "    ".

Definition chat_request_of (prompt : string) : chat_request :=
  {| messages := [("user", prompt)]; model := "llama3-8b-8192" |}.

(** [chat_completion.choices[0].message.content.strip()] *)
Definition first_choice_content (choices : list (option string)) : Py.result string :=
  match choices with
  | [] => Raise (IndexError "list index out of range")
  | Some content :: _ => Return (strip content)
  | None :: _ => Raise (AttributeError "NoneType" "strip")
  end.

(** The body of the [try] block. *)
Definition extract_attempt (prompt : string) : M string :=
  choices ← chat_completions_create (chat_request_of prompt);
  lift (first_choice_content choices).

(** The loop; a function that runs off its end returns [None], which
    the empty list of attempts stands for. *)
Fixpoint extract_loop (prompt : string) (attempts : list nat)
  : M (option string) :=
  match attempts with
  | [] => mret None
  | attempt :: rest =>
      try_except (content ← extract_attempt prompt; mret (Some content)) (fun e =>
        if (attempt <? MAX_RETRIES - 1)%nat
        then sleep (RETRY_DELAY * 2 ^ Z.of_nat attempt)%Z;;
             extract_loop prompt rest
        else raise (Wrapped "Error calling Groq API: " e))
  end.

Definition extract_information_with_groq
  (entity : string) (search_results : list hit)
  (query_template query_type : string) : M (option string) :=
  lift (groq_client GROQ_API_KEY);;
  let query := generate_query entity query_template in
  let search_context := search_context_of search_results in
  let prompt := prompt_of query entity query_type search_context in
  extract_loop prompt (range MAX_RETRIES).

(** *** perform_ner *)

(** [entities[ent.label_] = ent.text] for each span, in order. *)
Definition perform_ner (text : string) : gmap string string :=
  foldl (fun entities ent => <[label_ ent := Effects.text ent]> entities)
        ∅ (nlp text).

End WithEnv.

End DataProcessing.

Import DataProcessing.

(** ** app.py *)

Module App.

Definition RATE_LIMIT_DELAY : Z := 2.
Definition MAX_RETRIES : nat := 3.

(** One row of the result table, by its column names. *)
Record row : Type := Row {
  Entity : string;
  Extracted_Information : string;
  Search_Title : string;
  Search_URL : string;
  Search_Snippet : string;
  NER_Results : gmap string string;
  Query_Type : string
}.

(** [extracted_info or "Failed to extract"]: [None] and the empty string
    are both falsy. *)
Definition or_failed (extracted_info : option (option string)) : string :=
  match extracted_info with
  | Some (Some info) =>
      if String.eqb info EmptyString then "Failed to extract" else info
  | _ => "Failed to extract"
  end.

Section WithEnv.
Context `{E : Env}.

(** [safe_api_call]: the loop over [range(MAX_RETRIES)] and the
    [return None] after it. *)
Fixpoint safe_api_loop {A} (api_function : M A) (attempts : list nat)
  : M (option A) :=
  match attempts with
  | [] => mret None
  | attempt :: rest =>
      try_except (response ← api_function; mret (Some response)) (fun e =>
        st_error (AttemptFailed (attempt + 1) MAX_RETRIES e);;
        (if (attempt <? MAX_RETRIES - 1)%nat
         then sleep (RATE_LIMIT_DELAY * 2 ^ Z.of_nat attempt)%Z
         else st_error AllRetriesFailed);;
        safe_api_loop api_function rest)
  end.

Definition safe_api_call {A} (api_function : M A) : M (option A) :=
  safe_api_loop api_function (range MAX_RETRIES).

Definition found_row (entity : string) (extracted_info : option (option string))
  (preprocessed_results : list hit) (ner_results : gmap string string)
  (query_type : string) : row :=
  {| Entity := entity;
     Extracted_Information := or_failed extracted_info;
     Search_Title := join ", " (map title preprocessed_results);
     Search_URL := join ", " (map url preprocessed_results);
     Search_Snippet := join ", " (map snippet preprocessed_results);
     NER_Results := ner_results;
     Query_Type := query_type |}.

Definition not_found_row (entity : string) (ner_results : gmap string string)
  (query_type : string) : row :=
  {| Entity := entity;
     Extracted_Information := "No search results found";
     Search_Title := EmptyString;
     Search_URL := EmptyString;
     Search_Snippet := EmptyString;
     NER_Results := ner_results;
     Query_Type := query_type |}.

(** The body of [for entity in data[primary_column]], on the table
    [results] accumulated so far. *)
Definition process_entity (query_template entity : string) (results : list row)
  : M (list row) :=
  let ner_results := perform_ner entity in
  let query_type := classify_query query_template in
  web_result ← safe_api_call (search_entity_info entity);
  results' ←
    match web_result with
    | Some (first :: others) =>
        preprocessed_results ←
          lift (preprocess_search_results (VList (first :: others)));
        extracted_info ←
          safe_api_call (extract_information_with_groq
                           entity preprocessed_results query_template query_type);
        mret (results ++ [found_row entity extracted_info preprocessed_results
                                    ner_results query_type])
    | _ => mret (results ++ [not_found_row entity ner_results query_type])
    end;
  sleep RATE_LIMIT_DELAY;;
  mret results'.

(** The loop behind the "Run Search and Extract Information" button. *)
Fixpoint run_loop (query_template : string) (entities : list string)
  (results : list row) : M (list row) :=
  match entities with
  | [] => mret results
  | entity :: rest =>
      results' ← process_entity query_template entity results;
      run_loop query_template rest results'
  end.

Definition run (query_template : string) (entities : list string) : M (list row) :=
  run_loop query_template entities [].

End WithEnv.

End App.

Import App.

(** ** Google Sheets: the sheet id, the credentials and the upload *)

Module Sheets.

(** *** The sheet id of a URL *)

(** The character class [[a-zA-Z0-9_-]] (written [[a-zA-Z0-9-_]] in
    [connect_to_google_sheet]: the same set). *)
Definition is_id_char (c : ascii) : bool :=
  let n := code c in
  (((97 <=? n) && (n <=? 122)) || ((65 <=? n) && (n <=? 90))
   || ((48 <=? n) && (n <=? 57)) || (n =? 45) || (n =? 95))%nat.

(** The longest run of id characters at the head of a string: what the
    greedy group [([a-zA-Z0-9_-]+)] takes. *)
Fixpoint take_id (s : string) : string :=
  match s with
  | EmptyString => EmptyString
  | String c s' => if is_id_char c then String c (take_id s') else EmptyString
  end.

(** [s[n:]] *)
Fixpoint drop (n : nat) (s : string) : string :=
  match n, s with
  | O, _ => s
  | S n', String _ s' => drop n' s'
  | S _, EmptyString => EmptyString
  end.

(** The group of a match of [/d/([a-zA-Z0-9_-]+)] anchored at the head of
    [s], if there is one. *)
Definition match_here (s : string) : option string :=
  if startswith "/d/" s
  then match take_id (drop 3 s) with
       | EmptyString => None
       | id => Some id
       end
  else None.

(** [re.search(r'/d/([a-zA-Z0-9_-]+)', url)]: the group of the leftmost
    match, or None. *)
Fixpoint re_search (url : string) : option string :=
  match match_here url with
  | Some id => Some id
  | None =>
      match url with
      | EmptyString => None
      | String _ rest => re_search rest
      end
  end.

(** What the Google client libraries and the file system raise is a
    [LibraryError]; [ValueErrorOf prefix e] is [ValueError(f"{prefix}{e}")]. *)
Inductive error : Type :=
| ValueError (msg : string)
| ValueErrorOf (prefix : string) (cause : error)
| LibraryError (msg : string).

Inductive outcome (A : Type) : Type :=
| Done (a : A)
| Fail (e : error).
Arguments Done {A} a.
Arguments Fail {A} e.

(** [extract_sheet_id] of app.py *)
Definition extract_sheet_id (url : string) : outcome string :=
  match re_search url with
  | Some id => Done id
  | None => Fail (ValueError "Invalid Google Sheets URL. Could not extract Sheet ID.")
  end.

(** *** The collaborators *)

(** A credentials object, by what the code reads of it. *)
Record creds : Type := Credentials {
  valid : bool;
  expired : bool;
  refresh_token : option string;
  to_json : string
}.

(** A data frame: its column names and its rows. *)
Record frame : Type := Frame {
  columns : list string;
  rows : list (list pyval)
}.

(** [dataframe.empty]: no row or no column. *)
Definition empty (f : frame) : bool :=
  match columns f, rows f with
  | [], _ | _, [] => true
  | _, _ => false
  end.

(** What goes to the dashboard. *)
Inductive notice : Type :=
| NoData
| NoUrl
| UploadFailed (e : error)
| Traceback (e : error)
| ErrorUploading (e : error)
| DataUploaded (sheet_id : string)
| SuccessfullyUploaded.

Inductive event : Type :=
| Print (line : string)
| StError (n : notice)
| StSuccess (n : notice)
| TokenLoaded
| Refreshed
| FlowCreated
| FlowRun
| TokenWritten (json : string)
| Built
| Updated (sheet_id sheet_range : string) (values : list (list pyval)).

(** The Google libraries and the file system.  Each call answers or
    raises and moves the world on. *)
Class Env : Type := {
  World : Type;
  Flow : Type;
  Service : Type;
  GOOGLE_SHEETS_CREDENTIALS_PATH : option string;
  token_exists : World -> bool;
  from_authorized_user_file : World -> outcome creds * World;
  refresh : creds -> World -> outcome creds * World;
  from_client_secrets_file : option string -> World -> outcome Flow * World;
  run_local_server : Flow -> World -> outcome creds * World;
  write_token : string -> World -> outcome unit * World;
  build : creds -> World -> outcome Service * World;
  update_execute :
    Service -> string -> string -> list (list pyval) -> World -> outcome unit * World
}.

Section Monad.
Context `{E : Env}.

Record state : Type := State { world : World; log : list event }.

Definition M (A : Type) : Type := state -> outcome A * state.

#[export] Instance M_ret : MRet M := fun A a s => (Done a, s).

#[export] Instance M_bind : MBind M := fun A B k m s =>
  match m s with
  | (Done a, s') => k a s'
  | (Fail e, s') => (Fail e, s')
  end.

Definition raise {A} (e : error) : M A := fun s => (Fail e, s).

Definition emit (ev : event) : M unit :=
  fun s => (Done tt, {| world := world s; log := log s ++ [ev] |}).

(** A call of a collaborator, logged as [ev]. *)
Definition call {A} (f : World -> outcome A * World) (ev : event) : M A :=
  fun s =>
    let (r, w) := f (world s) in
    (r, {| world := w; log := log s ++ [ev] |}).

(** [try: body  except Exception as e: handler e] *)
Definition try_except {A} (body : M A) (handler : error -> M A) : M A :=
  fun s =>
    match body s with
    | (Done a, s') => (Done a, s')
    | (Fail e, s') => handler e s'
    end.

(** [print(line)] *)
Definition print (line : string) : M unit := emit (Print line).

Definition st_error (n : notice) : M unit := emit (StError n).

Definition st_success (n : notice) : M unit := emit (StSuccess n).

(** [os.path.exists("token.json")] *)
Definition path_exists_token : M bool := fun s => (Done (token_exists (world s)), s).

(** [credentials.refresh_token] as a condition: a non-empty string. *)
Definition has_refresh_token (c : creds) : bool :=
  match refresh_token c with
  | Some token => negb (String.eqb token EmptyString)
  | None => false
  end.

(** [flow = InstalledAppFlow.from_client_secrets_file(path, SCOPES);
    credentials = flow.run_local_server(port=0)] *)
Definition installed_app_flow (path : option string)   : M creds :=
  flow ← call (from_client_secrets_file path) FlowCreated;
  call (run_local_server flow) FlowRun.

(** [with open("token.json", "w") as token: token.write(credentials.to_json())] *)
Definition save_token (c : creds) : M unit :=
  call (write_token (to_json c)) (TokenWritten (to_json c)).

(** *** authenticate_google, of data_processing.py *)

Definition authenticate_google   : M creds :=
  found ← path_exists_token;
  credentials ←
    (if (found : bool)
     then c ← call from_authorized_user_file TokenLoaded; mret (Some c)
     else mret None) : M (option creds);
  match credentials with
  | Some c =>
      if valid c then mret c
      else
        renewed ←
          (if expired c && has_refresh_token c
           then call (refresh c) Refreshed
           else installed_app_flow GOOGLE_SHEETS_CREDENTIALS_PATH);
        save_token renewed;;
        mret renewed
  | None =>
      renewed ← installed_app_flow GOOGLE_SHEETS_CREDENTIALS_PATH;
      save_token renewed;;
      mret renewed
  end.

(** *** connect_to_google_sheet, of data_processing.py *)

Definition connect_to_google_sheet (sheet_url : string) : M (Service * string) :=
  match re_search sheet_url with
  | None =>
      raise (ValueError "Invalid Google Sheet URL. Could not extract spreadsheet ID.")
  | Some sheet_id =>
      try_except
        (credentials ← authenticate_google;
         service ← call (build credentials) Built;
         mret (service, sheet_id))
        (fun e => raise (ValueErrorOf "Error connecting to Google Sheets: " e))
  end.

(** *** upload_to_google_sheet, of app.py *)

(** [[list(dataframe.columns)] + dataframe.values.tolist()] *)
Definition values_of (dataframe : frame) : list (list pyval) :=
  map VStr (columns dataframe) :: rows dataframe.

(** The lines before the [try]: the credentials. *)
Definition upload_credentials : M creds :=
  print "[INFO] 8";;
  found ← path_exists_token;
  credentials ←
    (if (found : bool)
     then c ← call from_authorized_user_file TokenLoaded; mret (Some c)
     else mret None) : M (option creds);
  print "[INFO] 9";;
  match credentials with
  | Some c =>
      if valid c then mret c
      else
        renewed ←
          (if expired c && has_refresh_token c
           then call (refresh c) Refreshed
           else installed_app_flow GOOGLE_SHEETS_CREDENTIALS_PATH);
        print "[INFO] 10";;
        save_token renewed;;
        mret renewed
  | None =>
      renewed ← installed_app_flow GOOGLE_SHEETS_CREDENTIALS_PATH;
      print "[INFO] 10";;
      save_token renewed;;
      mret renewed
  end.

(** The [try] block and its [except] branch. *)
Definition upload_values (credentials : creds) (dataframe : frame)
  (sheet_id sheet_range : string) : M unit :=
  try_except
    (service ← call (build credentials) Built;
     print "[INFO] 11";;
     let values := values_of dataframe in
     print "[INFO] 12";;
     call (update_execute service sheet_id sheet_range values)
          (Updated sheet_id sheet_range values);;
     print "[INFO] 13";;
     st_success (DataUploaded sheet_id))
    (fun e => st_error (ErrorUploading e)).

Definition upload_to_google_sheet (dataframe : frame) (sheet_id sheet_range : string)
  : M unit :=
  credentials ← upload_credentials;
  upload_values credentials dataframe sheet_id sheet_range.

(** *** safe_upload_to_google_sheet, of app.py *)

Definition safe_upload_to_google_sheet (dataframe : option frame) (sheet_url : string)
  : M bool :=
  print "[INFO] 4";;
  try_except
    (print "[INFO] 5";;
     match dataframe with
     | None => st_error NoData;; mret false
     | Some df =>
         if empty df then st_error NoData;; mret false
         else if String.eqb sheet_url EmptyString then st_error NoUrl;; mret false
         else
           sheet_id ← (fun s => (extract_sheet_id sheet_url, s));
           print "[INFO] 6";;
           upload_to_google_sheet df sheet_id "Sheet1!A1";;
           print "[INFO] 7";;
           st_success SuccessfullyUploaded;;
           mret true
     end)
    (fun e => st_error (UploadFailed e);; st_error (Traceback e);; mret false).

End Monad.

End Sheets.

(** ** A scripted world

    Provider answers are played back from two queues, one per provider; an
    exhausted queue stands for an unreachable provider.  The tagger is a
    fixed toy that tags every text alike. *)

Module Scripted.

Definition world : Type :=
  (list (Py.result dict) * list (Py.result (list (option string))))%type.

Definition play {A} (queue : list (Py.result A)) : Py.result A * list (Py.result A) :=
  match queue with
  | [] => (Raise (ProviderError "connection refused"), [])
  | answer :: rest => (answer, rest)
  end.

Definition env : Env :=
  {| World := world;
     SERP_API_KEY := Some "serp-key";
     GROQ_API_KEY := Some "groq-key";
     serp_get_dict := fun _ w => let (r, rest) := play (fst w) in (r, (rest, snd w));
     groq_client := fun key =>
       match key with
       | Some _ => Return tt
       | None => Raise (ProviderError "the api_key client option must be set")
       end;
     groq_create := fun _ w => let (r, rest) := play (snd w) in (r, (fst w, rest));
     nlp := fun _ => [Ent "PERSON" "Ada"; Ent "ORG" "Acme"; Ent "PERSON" "Bob"] |}.

Definition start (w : world) : @state env := @State env w [].

(** A response with [n] organic results, each with a link only. *)
Definition organic (n : nat) : dict :=
  [("organic_results",
    VList (repeat (VDict [("link", VStr "http://example.org")]) n))].

End Scripted.

(** ** A scripted Google

    Every collaborator gives the answer that the world holds for it. *)

Module ScriptedSheets.

Record world : Type := World {
  has_token : bool;
  stored : Sheets.outcome Sheets.creds;
  refreshed : Sheets.outcome Sheets.creds;
  consent : Sheets.outcome Sheets.creds;
  written : Sheets.outcome unit;
  service : Sheets.outcome unit;
  updated : Sheets.outcome unit
}.

Definition env : Sheets.Env :=
  {| Sheets.World := world;
     Sheets.Flow := unit;
     Sheets.Service := unit;
     Sheets.GOOGLE_SHEETS_CREDENTIALS_PATH := Some "credentials.json";
     Sheets.token_exists := has_token;
     Sheets.from_authorized_user_file := fun w => (stored w, w);
     Sheets.refresh := fun _ w => (refreshed w, w);
     Sheets.from_client_secrets_file := fun _ w => (Sheets.Done tt, w);
     Sheets.run_local_server := fun _ w => (consent w, w);
     Sheets.write_token := fun _ w => (written w, w);
     Sheets.build := fun _ w => (service w, w);
     Sheets.update_execute := fun _ _ _ _ w => (updated w, w) |}.

Definition good : Sheets.creds :=
  {| Sheets.valid := true; Sheets.expired := false;
     Sheets.refresh_token := Some "r"; Sheets.to_json := "{good}" |}.

Definition stale : Sheets.creds :=
  {| Sheets.valid := false; Sheets.expired := true;
     Sheets.refresh_token := Some "r"; Sheets.to_json := "{stale}" |}.

(** A world with a valid stored token in which the update is refused. *)
Definition quota_exceeded : world :=
  {| has_token := true;
     stored := Sheets.Done good;
     refreshed := Sheets.Done good;
     consent := Sheets.Done good;
     written := Sheets.Done tt;
     service := Sheets.Done tt;
     updated := Sheets.Fail (Sheets.LibraryError "quota exceeded") |}.

(** A world with an expired, refreshable stored token. *)
Definition expired_token : world :=
  {| has_token := true;
     stored := Sheets.Done stale;
     refreshed := Sheets.Done good;
     consent := Sheets.Fail (Sheets.LibraryError "no browser");
     written := Sheets.Done tt;
     service := Sheets.Done tt;
     updated := Sheets.Done tt |}.

(** A world without a token in which the user does not consent. *)
Definition no_consent : world :=
  {| has_token := false;
     stored := Sheets.Fail (Sheets.LibraryError "no file");
     refreshed := Sheets.Fail (Sheets.LibraryError "no token");
     consent := Sheets.Fail (Sheets.LibraryError "access denied");
     written := Sheets.Done tt;
     service := Sheets.Done tt;
     updated := Sheets.Done tt |}.

Definition start (w : world) : @Sheets.state env := @Sheets.State env w [].

Definition table : Sheets.frame :=
  {| Sheets.columns := ["Entity"; "Extracted Information"];
     Sheets.rows := [[VStr "Acme Corp"; VStr "12"]] |}.

End ScriptedSheets.

(** ** Auxiliary notions for the proofs *)

(** A string that does not begin with whitespace. *)
Definition no_lead (s : string) : Prop :=
  match s with
  | EmptyString => True
  | String c _ => is_space c = false
  end.

(** Every field of a cleaned result is already trimmed. *)
Definition trimmed (h : hit) : Prop :=
  strip (title h) = title h /\ strip (url h) = url h
  /\ strip (snippet h) = snippet h.

(** One turn of the loop of [perform_ner]. *)
Definition bind_span (entities : gmap string string) (e : ent) : gmap string string :=
  <[label_ e := text e]> entities.

(** Counting what a trace records. *)
Fixpoint searches (tr : list event) : nat :=
  match tr with
  | [] => 0
  | EvSearch _ :: tr' => S (searches tr')
  | _ :: tr' => searches tr'
  end.

Fixpoint chats (tr : list event) : nat :=
  match tr with
  | [] => 0
  | EvChat _ :: tr' => S (chats tr')
  | _ :: tr' => chats tr'
  end.

Fixpoint st_errors (tr : list event) : nat :=
  match tr with
  | [] => 0
  | EvStError _ :: tr' => S (st_errors tr')
  | _ :: tr' => st_errors tr'
  end.

(** The seconds slept. *)
Fixpoint slept (tr : list event) : Z :=
  match tr with
  | [] => 0
  | EvSleep seconds :: tr' => seconds + slept tr'
  | _ :: tr' => slept tr'
  end.

(** The state in which [safe_api_call] leaves its [except] branch after
    attempt number [attempt] (from 0) raised [e] in state [s]. *)
Definition after_failure {E : Env} (attempt : nat) (e : exn) (s : state) : state :=
  if (attempt <? App.MAX_RETRIES - 1)%nat
  then snd (sleep (RATE_LIMIT_DELAY * 2 ^ Z.of_nat attempt)
                  (snd (st_error (AttemptFailed (attempt + 1) App.MAX_RETRIES e) s)))
  else snd (st_error AllRetriesFailed
              (snd (st_error (AttemptFailed (attempt + 1) App.MAX_RETRIES e) s))).

(** The hits built from [Scripted.organic n]. *)
Definition scripted_hits (n : nat) : list pyval :=
  repeat (VDict [("title", VStr "N/A"); ("url", VStr "http://example.org");
                 ("snippet", VStr "N/A")]) n.

(** The value under "organic_results" is a list whose entries are dicts. *)
Definition well_formed_organic (v : pyval) : bool :=
  match v with
  | VList items => forallb isinstance_dict items
  | _ => false
  end.

(** The key is absent from the dict or bound to a [str]. *)
Definition str_or_absent (d : dict) (k : string) : bool :=
  match lookup_key k d with
  | None | Some (VStr _) => true
  | Some _ => false
  end.

(** An entry the preprocessor can take: anything but a dict with a title,
    url or snippet that is not a [str]. *)
Definition cleanable (v : pyval) : bool :=
  match v with
  | VDict d =>
      str_or_absent d "title" && str_or_absent d "url" && str_or_absent d "snippet"
  | _ => true
  end.

(** The dicts among the entries of a list, in order. *)
Fixpoint dict_entries (items : list pyval) : list dict :=
  match items with
  | [] => []
  | VDict d :: rest => d :: dict_entries rest
  | _ :: rest => dict_entries rest
  end.

Fixpoint all_space (s : string) : bool :=
  match s with
  | EmptyString => true
  | String c s' => is_space c && all_space s'
  end.

Fixpoint ends_with_space (s : string) : bool :=
  match s with
  | EmptyString => false
  | String c EmptyString => is_space c
  | String _ s' => ends_with_space s'
  end.

(** [cleaned] is [raw] without the whitespace around it. *)
Definition trim_of (raw cleaned : string) : Prop :=
  exists pre suf : string,
    raw = pre +:+ cleaned +:+ suf
    /\ all_space pre = true /\ all_space suf = true
    /\ no_lead cleaned /\ ends_with_space cleaned = false.

(** The cleaned result [h] holds the trimmed title, url and snippet of the
    dict [d], an absent key counting as the empty string. *)
Definition cleaned_from (d : dict) (h : hit) : Prop :=
  exists t u sn : string,
    get d "title" (VStr EmptyString) = VStr t
    /\ get d "url" (VStr EmptyString) = VStr u
    /\ get d "snippet" (VStr EmptyString) = VStr sn
    /\ trim_of t (title h) /\ trim_of u (url h) /\ trim_of sn (snippet h).

(** The keywords that [classify_query] looks for. *)
Definition keywords : list string :=
  ["net worth"; "age"; "born"; "career"; "biography"; "parents"; "family";
   "job"; "education"; "school"; "married"; "spouse"; "award"; "achievement";
   "history"; "background"; "product"; "service"; "news"; "latest";
   "social media"; "twitter"; "instagram"; "charity"; "philanthropy";
   "property"; "real estate"; "health"; "condition"; "event"; "conference";
   "fruit"; "vegetable"].

(** Every character of the string is an id character. *)
Fixpoint all_id_chars (s : string) : bool :=
  match s with
  | EmptyString => true
  | String c s' => Sheets.is_id_char c && all_id_chars s'
  end.

(** The string begins with an id character. *)
Definition starts_with_id_char (s : string) : bool :=
  match s with
  | EmptyString => false
  | String c _ => Sheets.is_id_char c
  end.

(** The state [s] with the events [evs] logged after it. *)
Definition logged {E : Sheets.Env} (s : Sheets.state) (evs : list Sheets.event)
  : Sheets.state :=
  {| Sheets.world := Sheets.world s; Sheets.log := Sheets.log s ++ evs |}.

(** [retried search k s s1]: from [s], the first [k] attempts of the loop
    of [search_entity_info] have raised, the sleep after each of them is
    done, and the loop stands in [s1] before attempt number [k]. *)
Inductive retried {E : Env} (search : search_params) : nat -> state -> state -> Prop :=
| retried_none (s : state) : retried search 0 s s
| retried_next (k : nat) (s s1 s2 : state) (e : exn) :
    retried search k s s1 ->
    search_attempt search s1 = (Raise e, s2) ->
    retried search (S k) s (snd (sleep (RETRY_DELAY * 2 ^ Z.of_nat k) s2)).

(** The value of a field of a raw result, "N/A" when the field is absent. *)
Definition or_na (field : option pyval) : pyval :=
  match field with
  | Some v => v
  | None => VStr "N/A"
  end.

(** [h] is the normalized hit of the raw organic result [item]: the result
    is a dict, and the hit holds its title, link and snippet under the keys
    title, url and snippet. *)
Definition normalized (item h : pyval) : Prop :=
  exists raw : dict,
    item = VDict raw
    /\ h = VDict [("title", or_na (lookup_key "title" raw));
                  ("url", or_na (lookup_key "link" raw));
                  ("snippet", or_na (lookup_key "snippet" raw))].

(** What [safe_api_call] hands back is Python's None: its own
    [return None], or a response of the wrapped function that is None
    ([is_none] tells which responses are). *)
Definition returns_none {A} (is_none : A -> bool) (r : option A) : bool :=
  match r with
  | None => true
  | Some response => is_none response
  end.

(** * Properties *)

(** ** The query classifier *)

(** C3: a template whose lower-cased form contains "career" and none of
    "net worth", "age", "born" is classified as Biography: the Biography
    rule is tried before the Career rule. *)
Theorem classify_query_career_biography (query : string) :
  contains "career" (lower query) = true ->
  contains "net worth" (lower query) = false ->
  contains "age" (lower query) = false ->
  contains "born" (lower query) = false ->
  classify_query query = "Biography".
Proof.
  intros Hcareer Hworth Hage Hborn.
  unfold classify_query.
  rewrite Hworth, Hage, Hborn, Hcareer.
  reflexivity.
Qed.

Lemma classify_query_career_biography_witness :
  classify_query "What is the Career path of {entity}?" = "Biography".
Proof.
  apply classify_query_career_biography; reflexivity.
Defined.

(** The Career label is left to templates that mention "job". *)
Lemma classify_query_career_label (query : string) :
  classify_query query = "Career" -> contains "job" (lower query) = true.
Proof.
  unfold classify_query.
  repeat match goal with
         | |- context [if ?b then _ else _] =>
             let Hb := fresh "Hb" in destruct b eqn:Hb; try discriminate
         end.
  intros _.
  apply orb_true_iff in Hb3 as [Hjob | Hcareer]; [exact Hjob |].
  rewrite Hcareer in Hb1. discriminate.
Qed.

(** ** The result preprocessor *)

Section Strip.

Lemma lstrip_no_lead (s : string) : no_lead (lstrip s).
Proof.
  induction s as [| c s IH]; simpl; [exact I |].
  destruct (is_space c) eqn:Hc; [exact IH | exact Hc].
Qed.

Lemma lstrip_fixed (s : string) : no_lead s -> lstrip s = s.
Proof.
  destruct s as [| c s]; simpl; [reflexivity |].
  intros Hc. rewrite Hc. reflexivity.
Qed.

Lemma rstrip_cons (c : ascii) (s : string) :
  rstrip (String c s) =
    match rstrip s with
    | EmptyString => if is_space c then EmptyString else String c EmptyString
    | r => String c r
    end.
Proof. reflexivity. Qed.

Lemma rstrip_no_lead (s : string) : no_lead s -> no_lead (rstrip s).
Proof.
  destruct s as [| c s]; [intros _; exact I |].
  unfold no_lead at 1. intros Hc. rewrite rstrip_cons.
  destruct (rstrip s); [rewrite Hc |]; exact Hc.
Qed.

Lemma rstrip_idem (s : string) : rstrip (rstrip s) = rstrip s.
Proof.
  induction s as [| c s IH]; [reflexivity |].
  rewrite rstrip_cons.
  destruct (rstrip s) as [| d r] eqn:Hr.
  - destruct (is_space c) eqn:Hc; [reflexivity |].
    rewrite rstrip_cons. simpl. rewrite Hc. reflexivity.
  - rewrite rstrip_cons, IH. reflexivity.
Qed.

Lemma strip_idem (s : string) : strip (strip s) = strip s.
Proof.
  unfold strip.
  rewrite (lstrip_fixed (rstrip (lstrip s))).
  - apply rstrip_idem.
  - apply rstrip_no_lead, lstrip_no_lead.
Qed.

End Strip.

Lemma strip_method_inv (v : pyval) (s : string) :
  strip_method v = Return s -> exists s0, v = VStr s0 /\ s = strip s0.
Proof.
  destruct v; simpl; intros H; try discriminate.
  injection H as <-. eauto.
Qed.

Lemma clean_result_inv (d : dict) (h : hit) :
  clean_result d = Return h ->
  exists t u sn,
    get d "title" (VStr EmptyString) = VStr t
    /\ get d "url" (VStr EmptyString) = VStr u
    /\ get d "snippet" (VStr EmptyString) = VStr sn
    /\ h = Hit (strip t) (strip u) (strip sn).
Proof.
  unfold clean_result. intros H.
  destruct (strip_method (get d "title" _)) as [t |] eqn:Ht; [| discriminate].
  destruct (strip_method (get d "url" _)) as [u |] eqn:Hu; [| discriminate].
  destruct (strip_method (get d "snippet" _)) as [sn |] eqn:Hsn; [| discriminate].
  simpl in H. injection H as <-.
  apply strip_method_inv in Ht as (t0 & Ht0 & ->).
  apply strip_method_inv in Hu as (u0 & Hu0 & ->).
  apply strip_method_inv in Hsn as (sn0 & Hsn0 & ->).
  exists t0, u0, sn0. auto.
Qed.

Lemma clean_result_trimmed (d : dict) (h : hit) :
  clean_result d = Return h -> trimmed h.
Proof.
  intros H. apply clean_result_inv in H as (t & u & sn & _ & _ & _ & ->).
  unfold trimmed; simpl. auto using strip_idem.
Qed.

Lemma clean_result_hit_dict (h : hit) :
  clean_result [("title", VStr (title h)); ("url", VStr (url h));
                ("snippet", VStr (snippet h))]
  = Return (Hit (strip (title h)) (strip (url h)) (strip (snippet h))).
Proof. reflexivity. Qed.

Lemma preprocess_loop_trimmed (results : list pyval) :
  forall acc out,
    preprocess_loop results acc = Return out ->
    exists out', out = acc ++ out' /\ Forall trimmed out'.
Proof.
  induction results as [| result rest IH]; intros acc out H; simpl in H.
  - injection H as <-. exists []. rewrite app_nil_r. auto.
  - destruct result as [| b | n | s | items | d];
      try (apply IH; exact H).
    destruct (clean_result d) as [h |] eqn:Hd; simpl in H; [| discriminate].
    apply IH in H as (out' & -> & Hout').
    exists (h :: out'). split.
    + rewrite <- app_assoc. reflexivity.
    + constructor; [eapply clean_result_trimmed; eassumption | exact Hout'].
Qed.

Lemma preprocess_loop_fixed (out : list hit) :
  Forall trimmed out ->
  forall acc, preprocess_loop (map hit_dict out) acc = Return (acc ++ out).
Proof.
  induction 1 as [| h out (Ht & Hu & Hs) _ IH]; intros acc.
  - simpl. rewrite app_nil_r. reflexivity.
  - change (preprocess_loop (map hit_dict (h :: out)) acc)
      with (rbind (clean_result [("title", VStr (title h)); ("url", VStr (url h));
                                 ("snippet", VStr (snippet h))])
                  (fun c => preprocess_loop (map hit_dict out) (acc ++ [c]))).
    rewrite clean_result_hit_dict. simpl.
    rewrite IH, Ht, Hu, Hs, <- app_assoc. destruct h; reflexivity.
Qed.

(** C6: an input that is not a non-empty list (None, a scalar, a record,
    the empty list) is answered with the empty list, and nothing is
    raised. *)
Theorem preprocess_not_nonempty_list (results : pyval) :
  (forall first others, results <> VList (first :: others)) ->
  preprocess_search_results results = Return [].
Proof.
  intros Hshape. unfold preprocess_search_results.
  destruct results as [| b | n | s | items | d]; simpl;
    rewrite ?orb_true_r; try reflexivity.
  destruct items as [| first others]; [reflexivity |].
  exfalso. eapply Hshape. reflexivity.
Qed.

Lemma preprocess_not_nonempty_list_witness :
  preprocess_search_results VNone = Return []
  /\ preprocess_search_results (VInt 7) = Return []
  /\ preprocess_search_results (VStr "text") = Return []
  /\ preprocess_search_results (VDict [("title", VStr "Foo")]) = Return []
  /\ preprocess_search_results (VList []) = Return [].
Proof.
  refine (conj _ (conj _ (conj _ (conj _ _))));
    apply preprocess_not_nonempty_list; intros first others H; discriminate H.
Defined.

(** C7: on the raw hit with title " Foo ", no url key and a snippet key
    bound to None, the preprocessor raises AttributeError: the default of
    [get] replaces a missing key only, and None has no [strip]. *)
Theorem preprocess_null_snippet_raises :
  preprocess_search_results
    (VList [VDict [("title", VStr " Foo "); ("snippet", VNone)]])
  = Raise (AttributeError "NoneType" "strip").
Proof. reflexivity. Qed.

(** With the snippet key missing instead, the scenario comes out as
    described. *)
Lemma preprocess_missing_snippet :
  preprocess_search_results (VList [VDict [("title", VStr " Foo ")]])
  = Return [{| title := "Foo"; url := EmptyString; snippet := EmptyString |}].
Proof. reflexivity. Qed.

(** C8: the preprocessor is idempotent: run again on the list it returned,
    it returns that list unchanged. *)
Theorem preprocess_idempotent (results : pyval) (out : list hit) :
  preprocess_search_results results = Return out ->
  preprocess_search_results (VList (map hit_dict out)) = Return out.
Proof.
  intros H.
  assert (Hout : Forall trimmed out).
  { unfold preprocess_search_results in H.
    destruct (negb (truthy results) || negb (isinstance_list results)).
    - injection H as <-. constructor.
    - destruct results as [| b | n | s | items | d];
        try (injection H as <-; constructor).
      apply preprocess_loop_trimmed in H as (out' & -> & Hout'). exact Hout'. }
  destruct out as [| h out']; [reflexivity |].
  unfold preprocess_search_results.
  change (negb (truthy (VList (map hit_dict (h :: out'))))
          || negb (isinstance_list (VList (map hit_dict (h :: out'))))) with false.
  cbv iota. rewrite (preprocess_loop_fixed (h :: out') Hout []). reflexivity.
Qed.

Lemma preprocess_idempotent_witness :
  preprocess_search_results
    (VList (map hit_dict [{| title := "Foo"; url := "http://foo.example";
                             snippet := "a b" |}]))
  = Return [{| title := "Foo"; url := "http://foo.example"; snippet := "a b" |}].
Proof.
  apply (preprocess_idempotent
           (VList [VInt 3;
                   VDict [("title", VStr "  Foo ");
                          ("url", VStr "http://foo.example");
                          ("snippet", VStr (" a b" ++ nl))]])).
  reflexivity.
Defined.

(** ** The named-entity collapse *)

Lemma foldl_bind_span_other (label : string) (spans : list ent) :
  (forall e, In e spans -> label_ e <> label) ->
  forall entities : gmap string string,
    foldl bind_span entities spans !! label = entities !! label.
Proof.
  induction spans as [| e spans IH]; intros Hother entities; simpl.
  - reflexivity.
  - rewrite IH by (intros e' He'; apply Hother; right; exact He').
    unfold bind_span. apply lookup_insert_ne. apply Hother. left. reflexivity.
Qed.

(** C5: a tag is bound to the span of its last occurrence in the text:
    each later span of the same tag overwrites the earlier one. *)
Theorem perform_ner_last_occurrence {E : Env}
  (txt label span : string) (before after : list ent) :
  nlp txt = before ++ {| label_ := label; text := span |} :: after ->
  (forall e, In e after -> label_ e <> label) ->
  perform_ner txt !! label = Some span.
Proof.
  intros Hents Hlast. unfold perform_ner. rewrite Hents.
  change (fun entities e => <[label_ e := text e]> entities) with bind_span.
  rewrite foldl_app. simpl.
  rewrite (foldl_bind_span_other label after Hlast).
  unfold bind_span at 1. simpl. apply lookup_insert_eq.
Qed.

Lemma perform_ner_last_occurrence_witness :
  @perform_ner Scripted.env "Ada and Bob of Acme" !! "PERSON" = Some "Bob".
Proof.
  apply (@perform_ner_last_occurrence Scripted.env "Ada and Bob of Acme"
           "PERSON" "Bob" [Ent "PERSON" "Ada"; Ent "ORG" "Acme"] []).
  - reflexivity.
  - intros e He. destruct He.
Defined.

(** A tag that no span carries is not bound at all. *)
Lemma perform_ner_absent {E : Env} (txt label : string) :
  (forall e, In e (nlp txt) -> label_ e <> label) ->
  perform_ner txt !! label = None.
Proof.
  intros Habsent. unfold perform_ner.
  change (fun entities e => <[label_ e := text e]> entities) with bind_span.
  rewrite (foldl_bind_span_other label _ Habsent). apply lookup_empty.
Qed.

(** ** Retry loops *)

Section Retry.
Context {E : Env}.

Lemma search_attempt_trace (search : search_params) (s s' : state)
  (r : Py.result (list pyval)) :
  search_attempt search s = (r, s') ->
  trace s' = trace s ++ [EvSearch search].
Proof.
  unfold search_attempt, mbind, M_bind, get_dict, lift.
  destruct (serp_get_dict search (world s)) as [[results | e] w];
    intros H; injection H as _ <-; reflexivity.
Qed.

Lemma extract_attempt_trace (prompt : string) (s s' : state)
  (r : Py.result string) :
  extract_attempt prompt s = (r, s') ->
  trace s' = trace s ++ [EvChat (chat_request_of prompt)].
Proof.
  unfold extract_attempt, mbind, M_bind, chat_completions_create, lift.
  destruct (groq_create (chat_request_of prompt) (world s)) as [[choices | e] w];
    intros H; injection H as _ <-; reflexivity.
Qed.

Lemma bind_sleep {A} (seconds : Z) (k : unit -> M A) (s : state) :
  (sleep seconds ≫= k) s = k tt (snd (sleep seconds s)).
Proof. reflexivity. Qed.

Lemma bind_st_error {A} (m : message) (k : unit -> M A) (s : state) :
  (st_error m ≫= k) s = k tt (snd (st_error m s)).
Proof. reflexivity. Qed.

Lemma try_except_raise {A} (body : M A) (handler : exn -> M A)
  (s s' : state) (e : exn) :
  body s = (Raise e, s') -> try_except body handler s = handler e s'.
Proof. unfold try_except. intros ->. reflexivity. Qed.

Lemma try_except_return {A} (body : M A) (handler : exn -> M A)
  (s s' : state) (a : A) :
  body s = (Return a, s') -> try_except body handler s = (Return a, s').
Proof. unfold try_except. intros ->. reflexivity. Qed.

(** *** One turn of the search loop *)

Lemma search_loop_return (search : search_params) (attempt : nat)
  (rest : list nat) (s s' : state) (hits : list pyval) :
  search_attempt search s = (Return hits, s') ->
  search_loop search (attempt :: rest) s = (Return hits, s').
Proof. intros H. cbn [search_loop]. apply try_except_return, H. Qed.

Lemma search_loop_retry (search : search_params) (attempt : nat)
  (rest : list nat) (s s' : state) (e : exn) :
  search_attempt search s = (Raise e, s') ->
  (attempt <? DataProcessing.MAX_RETRIES - 1)%nat = true ->
  search_loop search (attempt :: rest) s
  = search_loop search rest
      (snd (sleep (RETRY_DELAY * 2 ^ Z.of_nat attempt) s')).
Proof.
  intros H Hlt. cbn [search_loop].
  rewrite (try_except_raise _ _ _ _ _ H), Hlt. apply bind_sleep.
Qed.

Lemma search_loop_give_up (search : search_params) (attempt : nat)
  (rest : list nat) (s s' : state) (e : exn) :
  search_attempt search s = (Raise e, s') ->
  (attempt <? DataProcessing.MAX_RETRIES - 1)%nat = false ->
  search_loop search (attempt :: rest) s
  = (Raise (Wrapped "Error performing search: " e), s').
Proof.
  intros H Hlt. cbn [search_loop].
  rewrite (try_except_raise _ _ _ _ _ H), Hlt. reflexivity.
Qed.

(** Three failed attempts in a row exhaust the search loop. *)
Lemma search_loop_exhausted (search : search_params)
  (s0 s1 s2 s3 : state) (e1 e2 e3 : exn) :
  search_attempt search s0 = (Raise e1, s1) ->
  search_attempt search (snd (sleep 2 s1)) = (Raise e2, s2) ->
  search_attempt search (snd (sleep 4 s2)) = (Raise e3, s3) ->
  search_loop search (range DataProcessing.MAX_RETRIES) s0
  = (Raise (Wrapped "Error performing search: " e3), s3)
  /\ trace s3 = trace s0 ++ [EvSearch search; EvSleep 2; EvSearch search;
                             EvSleep 4; EvSearch search].
Proof.
  intros H1 H2 H3. split.
  - change (range DataProcessing.MAX_RETRIES) with [0; 1; 2]%nat.
    rewrite (search_loop_retry _ _ _ _ _ _ H1) by reflexivity.
    rewrite (search_loop_retry _ _ _ _ _ _ H2) by reflexivity.
    apply (search_loop_give_up _ _ _ _ _ _ H3). reflexivity.
  - apply search_attempt_trace in H1, H2, H3.
    rewrite H3. simpl. rewrite H2. simpl. rewrite H1.
    rewrite <- !app_assoc. reflexivity.
Qed.

(** *** One turn of the extraction loop *)

Lemma extract_body_run (prompt : string) (s s' : state) (r : Py.result string) :
  extract_attempt prompt s = (r, s') ->
  (content ← extract_attempt prompt; mret (Some content)) s
  = (match r with Return c => Return (Some c) | Raise e => Raise e end, s').
Proof.
  intros H. unfold mbind at 1, M_bind at 1. rewrite H. destruct r; reflexivity.
Qed.

Lemma extract_loop_return (prompt : string) (attempt : nat)
  (rest : list nat) (s s' : state) (content : string) :
  extract_attempt prompt s = (Return content, s') ->
  extract_loop prompt (attempt :: rest) s = (Return (Some content), s').
Proof.
  intros H. cbn [extract_loop].
  apply try_except_return. apply (extract_body_run _ _ _ _ H).
Qed.

Lemma extract_loop_retry (prompt : string) (attempt : nat)
  (rest : list nat) (s s' : state) (e : exn) :
  extract_attempt prompt s = (Raise e, s') ->
  (attempt <? DataProcessing.MAX_RETRIES - 1)%nat = true ->
  extract_loop prompt (attempt :: rest) s
  = extract_loop prompt rest
      (snd (sleep (RETRY_DELAY * 2 ^ Z.of_nat attempt) s')).
Proof.
  intros H Hlt. cbn [extract_loop].
  rewrite (try_except_raise _ _ _ _ _ (extract_body_run _ _ _ _ H)), Hlt.
  apply bind_sleep.
Qed.

Lemma extract_loop_give_up (prompt : string) (attempt : nat)
  (rest : list nat) (s s' : state) (e : exn) :
  extract_attempt prompt s = (Raise e, s') ->
  (attempt <? DataProcessing.MAX_RETRIES - 1)%nat = false ->
  extract_loop prompt (attempt :: rest) s
  = (Raise (Wrapped "Error calling Groq API: " e), s').
Proof.
  intros H Hlt. cbn [extract_loop].
  rewrite (try_except_raise _ _ _ _ _ (extract_body_run _ _ _ _ H)), Hlt.
  reflexivity.
Qed.

Lemma extract_loop_exhausted (prompt : string)
  (s0 s1 s2 s3 : state) (e1 e2 e3 : exn) :
  extract_attempt prompt s0 = (Raise e1, s1) ->
  extract_attempt prompt (snd (sleep 2 s1)) = (Raise e2, s2) ->
  extract_attempt prompt (snd (sleep 4 s2)) = (Raise e3, s3) ->
  extract_loop prompt (range DataProcessing.MAX_RETRIES) s0
  = (Raise (Wrapped "Error calling Groq API: " e3), s3)
  /\ trace s3 = trace s0 ++ [EvChat (chat_request_of prompt); EvSleep 2;
                             EvChat (chat_request_of prompt); EvSleep 4;
                             EvChat (chat_request_of prompt)].
Proof.
  intros H1 H2 H3. split.
  - change (range DataProcessing.MAX_RETRIES) with [0; 1; 2]%nat.
    rewrite (extract_loop_retry _ _ _ _ _ _ H1) by reflexivity.
    rewrite (extract_loop_retry _ _ _ _ _ _ H2) by reflexivity.
    apply (extract_loop_give_up _ _ _ _ _ _ H3). reflexivity.
  - apply extract_attempt_trace in H1, H2, H3.
    rewrite H3. simpl. rewrite H2. simpl. rewrite H1.
    rewrite <- !app_assoc. reflexivity.
Qed.

(** The client is built before the first attempt and logs nothing. *)
Lemma extract_information_with_groq_run
  (entity : string) (search_results : list hit)
  (query_template query_type : string) (s : state) :
  groq_client GROQ_API_KEY = Return tt ->
  extract_information_with_groq entity search_results query_template query_type s
  = extract_loop
      (prompt_of (generate_query entity query_template) entity query_type
                 (search_context_of search_results))
      (range DataProcessing.MAX_RETRIES) s.
Proof.
  intros Hclient. unfold extract_information_with_groq.
  unfold mbind at 1, M_bind at 1, lift. rewrite Hclient. reflexivity.
Qed.

End Retry.

(** C1: a search call, and an extraction call, that fails on every
    attempt makes exactly three attempts, sleeps 2 seconds after the first
    failure and 4 seconds after the second, does not sleep after the third,
    and then raises the terminal error. *)
Theorem retry_cap_three_attempts {E : Env} :
  (forall (entity : string) (s0 s1 s2 s3 : state) (e1 e2 e3 : exn),
      let search := search_params_of entity in
      search_attempt search s0 = (Raise e1, s1) ->
      search_attempt search (snd (sleep 2 s1)) = (Raise e2, s2) ->
      search_attempt search (snd (sleep 4 s2)) = (Raise e3, s3) ->
      search_entity_info entity s0
      = (Raise (Wrapped "Error performing search: " e3), s3)
      /\ trace s3 = trace s0 ++ [EvSearch search; EvSleep 2; EvSearch search;
                                 EvSleep 4; EvSearch search])
  /\ (forall (entity : string) (search_results : list hit)
             (query_template query_type : string)
             (s0 s1 s2 s3 : state) (e1 e2 e3 : exn),
      let prompt := prompt_of (generate_query entity query_template) entity
                              query_type (search_context_of search_results) in
      let request := chat_request_of prompt in
      groq_client GROQ_API_KEY = Return tt ->
      extract_attempt prompt s0 = (Raise e1, s1) ->
      extract_attempt prompt (snd (sleep 2 s1)) = (Raise e2, s2) ->
      extract_attempt prompt (snd (sleep 4 s2)) = (Raise e3, s3) ->
      extract_information_with_groq entity search_results query_template
                                    query_type s0
      = (Raise (Wrapped "Error calling Groq API: " e3), s3)
      /\ trace s3 = trace s0 ++ [EvChat request; EvSleep 2; EvChat request;
                                 EvSleep 4; EvChat request]).
Proof.
  split.
  - intros entity s0 s1 s2 s3 e1 e2 e3 search H1 H2 H3.
    unfold search_entity_info. fold search.
    exact (search_loop_exhausted search s0 s1 s2 s3 e1 e2 e3 H1 H2 H3).
  - intros entity search_results query_template query_type
           s0 s1 s2 s3 e1 e2 e3 prompt request Hclient H1 H2 H3.
    rewrite (extract_information_with_groq_run _ _ _ _ _ Hclient). fold prompt.
    exact (extract_loop_exhausted prompt s0 s1 s2 s3 e1 e2 e3 H1 H2 H3).
Qed.

Lemma retry_cap_three_attempts_witness :
  let down := ProviderError "connection refused" in
  let search := @search_params_of Scripted.env "Acme Corp" in
  let request :=
    chat_request_of
      (prompt_of (generate_query "Acme Corp" "Extract the net worth of {entity}")
                 "Acme Corp" "Net Worth"
                 (search_context_of [Hit "A" "http://a.example" "a"])) in
  @search_entity_info Scripted.env "Acme Corp" (Scripted.start ([], []))
  = (Raise (Wrapped "Error performing search: " down),
     @State Scripted.env ([], [])
       [EvSearch search; EvSleep 2; EvSearch search; EvSleep 4; EvSearch search])
  /\ @extract_information_with_groq Scripted.env "Acme Corp"
       [Hit "A" "http://a.example" "a"] "Extract the net worth of {entity}"
       "Net Worth" (Scripted.start ([], []))
     = (Raise (Wrapped "Error calling Groq API: " down),
        @State Scripted.env ([], [])
          [EvChat request; EvSleep 2; EvChat request; EvSleep 4; EvChat request]).
Proof.
  intros down search request.
  destruct (@retry_cap_three_attempts Scripted.env) as [Hsearch Hextract].
  split.
  - refine (proj1 (Hsearch "Acme Corp" (Scripted.start ([], [])) _ _ _ down down down _ _ _));
      reflexivity.
  - refine (proj1 (Hextract "Acme Corp" [Hit "A" "http://a.example" "a"]
                     "Extract the net worth of {entity}" "Net Worth"
                     (Scripted.start ([], [])) _ _ _ down down down _ _ _ _));
      reflexivity.
Defined.

(** ** The search client *)

Lemma map_result_Forall2 {A B} (f : A -> Py.result B) (items : list A) :
  forall out, map_result f items = Return out ->
              Forall2 (fun x y => f x = Return y) items out.
Proof.
  induction items as [| x items IH]; intros out H; simpl in H.
  - injection H as <-. constructor.
  - destruct (f x) as [y |] eqn:Hx; simpl in H; [| discriminate].
    destruct (map_result f items) as [ys |]; simpl in H; [| discriminate].
    injection H as <-. constructor; [exact Hx | apply IH; reflexivity].
Qed.

Lemma lookup_key_has_key (k : string) (d : dict) :
  has_key k d = true -> exists v, lookup_key k d = Some v.
Proof.
  unfold has_key. destruct (lookup_key k d) as [v |]; [eauto | discriminate].
Qed.

(** The hits drawn from a response: none, or one per organic result. *)
Lemma organic_hits_inv (results : dict) (hits : list pyval) :
  organic_hits results = Return hits ->
  hits = []
  \/ exists items,
      lookup_key "organic_results" results = Some (VList items)
      /\ Forall2 (fun item h => organic_hit item = Return h) items hits.
Proof.
  unfold organic_hits.
  destruct (has_key "organic_results" results) eqn:Hkey; simpl;
    [| intros H; injection H as <-; left; reflexivity].
  apply lookup_key_has_key in Hkey as [v Hv].
  unfold get. rewrite Hv.
  destruct (truthy v) eqn:Htruthy;
    [| intros H; injection H as <-; left; reflexivity].
  destruct v as [| b | n | s | items | d]; simpl; try discriminate.
  - destruct s as [| c s]; [discriminate Htruthy | simpl; discriminate].
  - intros H. right. exists items. split; [reflexivity |].
    apply map_result_Forall2, H.
  - destruct d as [| [k v] d]; [discriminate Htruthy | simpl; discriminate].
Qed.

Section SearchClient.
Context {E : Env}.

Lemma search_attempt_inv (search : search_params) (s s' : state)
  (hits : list pyval) :
  search_attempt search s = (Return hits, s') ->
  exists results,
    serp_get_dict search (world s) = (Return results, world s')
    /\ organic_hits results = Return hits.
Proof.
  unfold search_attempt, mbind, M_bind, get_dict, lift.
  destruct (serp_get_dict search (world s)) as [[results | e] w];
    intros H; [| discriminate].
  injection H as Hhits <-. exists results. split; [reflexivity | exact Hhits].
Qed.

Lemma search_attempt_no_organic (search : search_params) (s : state)
  (results : dict) (w' : World) :
  serp_get_dict search (world s) = (Return results, w') ->
  has_key "organic_results" results
  && truthy (get results "organic_results" VNone) = false ->
  search_attempt search s
  = (Return [], {| world := w'; trace := trace s ++ [EvSearch search] |}).
Proof.
  intros Hresp Hnone.
  unfold search_attempt, mbind, M_bind, get_dict, lift. rewrite Hresp.
  unfold organic_hits. rewrite Hnone. reflexivity.
Qed.

(** Whatever the loop returns was drawn from one response. *)
Lemma search_loop_inv (search : search_params) (attempts : list nat) :
  forall (s s' : state) (hits : list pyval),
    search_loop search attempts s = (Return hits, s') ->
    hits = []
    \/ exists s1, search_attempt search s1 = (Return hits, s').
Proof.
  induction attempts as [| attempt rest IH]; intros s s' hits H.
  - injection H as <- _. left. reflexivity.
  - cbn [search_loop] in H. unfold try_except in H.
    destruct (search_attempt search s) as [[found | e] s1] eqn:Hattempt.
    + injection H as <- <-. right. exists s. exact Hattempt.
    + destruct (attempt <? DataProcessing.MAX_RETRIES - 1)%nat.
      * rewrite bind_sleep in H. apply IH in H. exact H.
      * discriminate H.
Qed.

End SearchClient.

(** *** The hits of a response, and the attempt that returns them *)

Lemma organic_hit_normalized (item h : pyval) :
  organic_hit item = Return h <-> normalized item h.
Proof.
  unfold normalized, organic_hit, get, or_na. split.
  - destruct item as [| b | n | s | items | d]; intros H; try discriminate H.
    injection H as <-. exists d. split; reflexivity.
  - intros (raw & -> & ->). reflexivity.
Qed.

Lemma map_result_normalized (items hits : list pyval) :
  map_result organic_hit items = Return hits <-> Forall2 normalized items hits.
Proof.
  split.
  - intros H. apply map_result_Forall2 in H.
    induction H as [| item h items hits Hitem _ IH]; constructor;
      [apply organic_hit_normalized, Hitem | exact IH].
  - induction 1 as [| item h items hits Hitem _ IH]; [reflexivity |].
    apply organic_hit_normalized in Hitem. simpl. rewrite Hitem. simpl.
    rewrite IH. reflexivity.
Qed.

(** The hits drawn from a response, in terms of the response alone. *)
Lemma organic_hits_spec (results : dict) (hits : list pyval) :
  organic_hits results = Return hits
  <-> (has_key "organic_results" results
       && truthy (get results "organic_results" VNone) = false
       /\ hits = [])
      \/ (exists items : list pyval,
             lookup_key "organic_results" results = Some (VList items)
             /\ items <> []
             /\ Forall2 normalized items hits).
Proof.
  unfold organic_hits, has_key, get.
  destruct (lookup_key "organic_results" results) as [v |]; simpl.
  2: { split.
       - intros H. injection H as <-. left. auto.
       - intros [[_ ->] | (items & Hitems & _)]; [reflexivity | discriminate Hitems]. }
  destruct (truthy v) eqn:Htruthy.
  - split.
    + intros H. right.
      destruct v as [| b | n | s | items | d]; simpl in H; try discriminate H.
      * destruct s as [| c s]; [discriminate Htruthy | discriminate H].
      * exists items. split; [reflexivity |].
        split; [intros ->; discriminate Htruthy | apply map_result_normalized, H].
      * destruct d as [| [k v] d]; [discriminate Htruthy | discriminate H].
    + intros [[Hfalse _] | (items & Hitems & _ & Hall)]; [discriminate Hfalse |].
      injection Hitems as ->. simpl. apply map_result_normalized, Hall.
  - split.
    + intros H. injection H as <-. left. auto.
    + intros [[_ ->] | (items & Hitems & Hne & _)]; [reflexivity |].
      injection Hitems as ->. destruct items; [contradiction | discriminate Htruthy].
Qed.

Section SearchRun.
Context {E : Env}.

Lemma search_attempt_spec (search : search_params) (s s' : state)
  (hits : list pyval) :
  search_attempt search s = (Return hits, s')
  <-> exists results : dict,
      serp_get_dict search (world s) = (Return results, world s')
      /\ trace s' = trace s ++ [EvSearch search]
      /\ organic_hits results = Return hits.
Proof.
  unfold search_attempt, mbind, M_bind, get_dict, lift.
  destruct (serp_get_dict search (world s)) as [[results | e] w]; split.
  - intros H. injection H as Hhits <-. exists results. auto.
  - intros (results' & Hresp & Htrace & Hhits).
    injection Hresp as <- ->. rewrite Hhits, <- Htrace. destruct s'; reflexivity.
  - intros H. discriminate H.
  - intros (results' & Hresp & _). discriminate Hresp.
Qed.

(** After [k] failed attempts the loop goes on with the attempts from
    number [k]. *)
Lemma retried_loop (search : search_params) (k : nat) (s s1 : state) :
  retried search k s s1 ->
  k < 3 ->
  search_loop search (range DataProcessing.MAX_RETRIES) s
  = search_loop search (seq k (3 - k)) s1.
Proof.
  induction 1 as [s | k s s1 s2 e _ IH Hattempt]; intros Hk; [reflexivity |].
  rewrite IH by lia.
  replace (3 - k) with (S (3 - S k)) by lia. cbn [seq].
  apply (search_loop_retry _ _ _ _ _ _ Hattempt).
  apply Nat.ltb_lt. unfold DataProcessing.MAX_RETRIES. lia.
Qed.

Lemma retried_returns (entity : string) (k : nat) (s s1 s' : state)
  (hits : list pyval) :
  k < 3 ->
  retried (search_params_of entity) k s s1 ->
  search_attempt (search_params_of entity) s1 = (Return hits, s') ->
  search_entity_info entity s = (Return hits, s').
Proof.
  intros Hk Hretried Hattempt. unfold search_entity_info.
  rewrite (retried_loop _ k s s1 Hretried Hk).
  replace (3 - k) with (S (3 - S k)) by lia. cbn [seq].
  apply (search_loop_return _ _ _ _ _ _ Hattempt).
Qed.

Lemma search_entity_info_returns_inv (entity : string) (s s' : state)
  (hits : list pyval) :
  search_entity_info entity s = (Return hits, s') ->
  exists (k : nat) (s1 : state),
    k < 3
    /\ retried (search_params_of entity) k s s1
    /\ search_attempt (search_params_of entity) s1 = (Return hits, s').
Proof.
  unfold search_entity_info.
  change (range DataProcessing.MAX_RETRIES) with [0; 1; 2]%nat.
  set (search := search_params_of entity). intros H.
  destruct (search_attempt search s) as [[hits1 | e1] s1] eqn:H1.
  { rewrite (search_loop_return _ _ _ _ _ _ H1) in H. injection H as <- <-.
    exists 0, s. split; [lia |]. split; [constructor | exact H1]. }
  rewrite (search_loop_retry _ _ _ _ _ _ H1) in H by reflexivity.
  pose proof (retried_next search 0 s s s1 e1 (retried_none search s) H1) as R1.
  destruct (search_attempt search (snd (sleep (RETRY_DELAY * 2 ^ Z.of_nat 0) s1)))
    as [[hits2 | e2] s2] eqn:H2.
  { rewrite (search_loop_return _ _ _ _ _ _ H2) in H. injection H as <- <-.
    exists 1, (snd (sleep (RETRY_DELAY * 2 ^ Z.of_nat 0) s1)).
    split; [lia |]. split; [exact R1 | exact H2]. }
  rewrite (search_loop_retry _ _ _ _ _ _ H2) in H by reflexivity.
  pose proof (retried_next search 1 s _ s2 e2 R1 H2) as R2.
  destruct (search_attempt search (snd (sleep (RETRY_DELAY * 2 ^ Z.of_nat 1) s2)))
    as [[hits3 | e3] s3] eqn:H3.
  { rewrite (search_loop_return _ _ _ _ _ _ H3) in H. injection H as <- <-.
    exists 2, (snd (sleep (RETRY_DELAY * 2 ^ Z.of_nat 1) s2)).
    split; [lia |]. split; [exact R2 | exact H3]. }
  rewrite (search_loop_give_up _ _ _ _ _ _ H3) in H by reflexivity.
  discriminate H.
Qed.

End SearchRun.

(** C2, as amended: whatever [search_entity_info] returns are the hits of
    the response that one of its at most three attempts received: the empty
    list when that response holds no organic results, and otherwise one
    normalized hit per organic result, in order, as many as the provider
    sent (ten are requested, the list is not cut).  A response without
    organic results, at whichever attempt it comes, is answered with the
    empty list and nothing is raised, whereas three failed attempts end in
    a raised error. *)
Theorem search_entity_info_hits {E : Env} (entity : string) :
  let search := search_params_of entity in
  num search = 10%Z
  /\ (forall (s s' : state) (hits : list pyval),
         search_entity_info entity s = (Return hits, s') ->
         exists (k : nat) (s1 : state) (results : dict),
           k < 3
           /\ retried search k s s1
           /\ serp_get_dict search (world s1) = (Return results, world s')
           /\ trace s' = trace s1 ++ [EvSearch search]
           /\ ((has_key "organic_results" results
                && truthy (get results "organic_results" VNone) = false
                /\ hits = [])
               \/ (exists items : list pyval,
                      lookup_key "organic_results" results = Some (VList items)
                      /\ items <> []
                      /\ length hits = length items
                      /\ Forall2 normalized items hits)))
  /\ (forall (k : nat) (s s1 : state) (results : dict) (w' : World),
         k < 3 ->
         retried search k s s1 ->
         serp_get_dict search (world s1) = (Return results, w') ->
         (has_key "organic_results" results
          && truthy (get results "organic_results" VNone) = false ->
          search_entity_info entity s
          = (Return [], {| world := w'; trace := trace s1 ++ [EvSearch search] |}))
         /\ (forall items hits : list pyval,
                lookup_key "organic_results" results = Some (VList items) ->
                items <> [] ->
                Forall2 normalized items hits ->
                search_entity_info entity s
                = (Return hits,
                   {| world := w'; trace := trace s1 ++ [EvSearch search] |})
                /\ length hits = length items))
  /\ (forall (s0 s1 s2 s3 : state) (e1 e2 e3 : exn),
         search_attempt search s0 = (Raise e1, s1) ->
         search_attempt search (snd (sleep 2 s1)) = (Raise e2, s2) ->
         search_attempt search (snd (sleep 4 s2)) = (Raise e3, s3) ->
         search_entity_info entity s0
         = (Raise (Wrapped "Error performing search: " e3), s3)).
Proof.
  intros search. split; [reflexivity |]. split; [| split].
  - intros s s' hits H.
    apply search_entity_info_returns_inv in H as (k & s1 & Hk & Hretried & H).
    apply search_attempt_spec in H as (results & Hresp & Htrace & Hhits).
    exists k, s1, results. repeat (split; [assumption |]).
    apply organic_hits_spec in Hhits
      as [[Hnone ->] | (items & Hitems & Hne & Hall)]; [left; auto | right].
    exists items. repeat (split; [assumption |]).
    split; [symmetry; eapply Forall2_length, Hall | exact Hall].
  - intros k s s1 results w' Hk Hretried Hresp. split.
    + intros Hnone. apply (retried_returns entity k s s1 _ _ Hk Hretried).
      apply search_attempt_spec. exists results. simpl.
      repeat split; [exact Hresp |].
      apply organic_hits_spec. left. auto.
    + intros items hits Hitems Hne Hall. split.
      * apply (retried_returns entity k s s1 _ _ Hk Hretried).
        apply search_attempt_spec. exists results. simpl.
        repeat split; [exact Hresp |].
        apply organic_hits_spec. right. exists items. auto.
      * symmetry. eapply Forall2_length, Hall.
  - intros s0 s1 s2 s3 e1 e2 e3 H1 H2 H3.
    unfold search_entity_info. fold search.
    exact (proj1 (search_loop_exhausted search s0 s1 s2 s3 e1 e2 e3 H1 H2 H3)).
Qed.

Lemma search_entity_info_hits_witness :
  let search := @search_params_of Scripted.env "Acme Corp" in
  let timeout := ProviderError "timeout" in
  @search_entity_info Scripted.env "Acme Corp"
    (Scripted.start ([Raise timeout; Return (Scripted.organic 2)], []))
  = (Return (scripted_hits 2),
     @State Scripted.env ([], []) [EvSearch search; EvSleep 2; EvSearch search])
  /\ @search_entity_info Scripted.env "Acme Corp"
       (Scripted.start ([Return [("search_metadata", VDict [])]], []))
     = (Return [], @State Scripted.env ([], []) [EvSearch search])
  /\ fst (@search_entity_info Scripted.env "Acme Corp" (Scripted.start ([], [])))
     = Raise (Wrapped "Error performing search: "
                      (ProviderError "connection refused")).
Proof.
  intros search timeout.
  destruct (@search_entity_info_hits Scripted.env "Acme Corp")
    as (_ & _ & Hreturns & Hdown).
  split; [| split].
  - pose (s := Scripted.start ([Raise timeout; Return (Scripted.organic 2)], [])).
    assert (Hretried :
              @retried Scripted.env search 1 s
                (@State Scripted.env ([Return (Scripted.organic 2)], [])
                   [EvSearch search; EvSleep 2])).
    { exact (@retried_next Scripted.env search 0 s s
               (@State Scripted.env ([Return (Scripted.organic 2)], [])
                  [EvSearch search])
               timeout (@retried_none Scripted.env search s) eq_refl). }
    refine (proj1 (proj2 (Hreturns 1 s _ (Scripted.organic 2) ([], [])
                            _ Hretried eq_refl)
                         (repeat (VDict [("link", VStr "http://example.org")]) 2)
                         (scripted_hits 2) eq_refl _ _)).
    + lia.
    + discriminate.
    + repeat constructor; exists [("link", VStr "http://example.org")];
        split; reflexivity.
  - pose (s := Scripted.start ([Return [("search_metadata", VDict [])]], [])).
    exact (proj1 (Hreturns 0 s s [("search_metadata", VDict [])] ([], [])
                    ltac:(lia) (@retried_none Scripted.env search s) eq_refl)
                 eq_refl).
  - rewrite (Hdown (Scripted.start ([], []))
                   (@State Scripted.env ([], []) [EvSearch search])
                   (@State Scripted.env ([], [])
                      [EvSearch search; EvSleep 2; EvSearch search])
                   (@State Scripted.env ([], [])
                      [EvSearch search; EvSleep 2; EvSearch search;
                       EvSleep 4; EvSearch search])
                   (ProviderError "connection refused")
                   (ProviderError "connection refused")
                   (ProviderError "connection refused"));
      reflexivity.
Defined.

(** The claim as written fails: the list is as long as the provider's
    answer, here eleven organic results. *)
Lemma search_entity_info_not_capped :
  ~ (forall (E : Env) (entity : string) (s s' : state) (hits : list pyval),
        search_entity_info entity s = (Return hits, s') ->
        length hits <= 10).
Proof.
  intros Hclaim.
  pose (s := Scripted.start ([Return (Scripted.organic 11)], [])).
  specialize (Hclaim Scripted.env "Acme Corp" s
                     (snd (@search_entity_info Scripted.env "Acme Corp" s))
                     (repeat (VDict [("title", VStr "N/A");
                                     ("url", VStr "http://example.org");
                                     ("snippet", VStr "N/A")]) 11)
                     eq_refl).
  simpl in Hclaim. lia.
Qed.

(** ** Defaults of absent fields *)

Lemma get_absent (d : dict) (k : string) (default : pyval) :
  lookup_key k d = None -> get d k default = default.
Proof. unfold get. intros ->. reflexivity. Qed.

Lemma preprocess_loop_dict (d : dict) (rest : list pyval) (acc : list hit) :
  preprocess_loop (VDict d :: rest) acc
  = rbind (clean_result d) (fun c => preprocess_loop rest (acc ++ [c])).
Proof. reflexivity. Qed.

(** The preprocessor on hits that [search_entity_info] built: one cleaned
    result per raw result, at the same place. *)
Lemma preprocess_loop_normalized (items hits : list pyval) :
  Forall2 normalized items hits ->
  forall acc out,
    preprocess_loop hits acc = Return out ->
    exists out',
      out = acc ++ out'
      /\ Forall2 (fun item h =>
                    exists raw : dict,
                      item = VDict raw
                      /\ clean_result
                           [("title", or_na (lookup_key "title" raw));
                            ("url", or_na (lookup_key "link" raw));
                            ("snippet", or_na (lookup_key "snippet" raw))]
                         = Return h) items out'.
Proof.
  induction 1 as [| item h0 items hits (raw & -> & ->) _ IH]; intros acc out H.
  - injection H as <-. exists []. rewrite app_nil_r. split; [reflexivity | constructor].
  - rewrite preprocess_loop_dict in H.
    destruct (clean_result _) as [h |] eqn:Hclean; simpl in H; [| discriminate H].
    apply IH in H as (out' & -> & Hall).
    exists (h :: out'). rewrite <- app_assoc. split; [reflexivity |].
    constructor; [exists raw; split; [reflexivity | exact Hclean] | exact Hall].
Qed.

Lemma preprocess_loop_cleaned (items : list pyval) :
  forall acc out,
    preprocess_loop items acc = Return out ->
    exists out',
      out = acc ++ out'
      /\ Forall2 (fun d h => clean_result d = Return h) (dict_entries items) out'.
Proof.
  induction items as [| item items IH]; intros acc out H.
  - injection H as <-. exists []. rewrite app_nil_r. split; [reflexivity | constructor].
  - destruct item as [| b | n | s | l | d]; try (apply IH; exact H).
    rewrite preprocess_loop_dict in H.
    destruct (clean_result d) as [h |] eqn:Hclean; simpl in H; [| discriminate H].
    apply IH in H as (out' & -> & Hall).
    exists (h :: out'). rewrite <- app_assoc. split; [reflexivity |].
    simpl. constructor; [exact Hclean | exact Hall].
Qed.

Lemma normalized_exists (items : list pyval) :
  forallb isinstance_dict items = true ->
  exists hits, Forall2 normalized items hits.
Proof.
  induction items as [| item items IH]; simpl; intros Hall.
  - exists []. constructor.
  - apply andb_true_iff in Hall as [Hitem Hrest].
    destruct (IH Hrest) as [hits Hhits].
    destruct item as [| b | n | s | l | raw]; try discriminate Hitem.
    eexists (_ :: hits). constructor; [exists raw; split; reflexivity | exact Hhits].
Qed.

Lemma clean_hit_na (t u sn : pyval) (h : hit) :
  clean_result [("title", t); ("url", u); ("snippet", sn)] = Return h ->
  (t = VStr "N/A" -> title h = "N/A")
  /\ (u = VStr "N/A" -> url h = "N/A")
  /\ (sn = VStr "N/A" -> snippet h = "N/A").
Proof.
  intros H. apply clean_result_inv in H as (t0 & u0 & sn0 & Ht & Hu & Hsn & ->).
  change (t = VStr t0) in Ht. change (u = VStr u0) in Hu.
  change (sn = VStr sn0) in Hsn. subst t u sn. simpl.
  repeat split; intros Hna; injection Hna as ->; reflexivity.
Qed.

Lemma clean_result_absent (d : dict) (h : hit) :
  clean_result d = Return h ->
  (lookup_key "title" d = None -> title h = EmptyString)
  /\ (lookup_key "url" d = None -> url h = EmptyString)
  /\ (lookup_key "snippet" d = None -> snippet h = EmptyString).
Proof.
  intros H. apply clean_result_inv in H as (t & u & sn & Ht & Hu & Hsn & ->).
  simpl. repeat split; intros Habsent;
    rewrite (get_absent _ _ _ Habsent) in *.
  - injection Ht as <-. reflexivity.
  - injection Hu as <-. reflexivity.
  - injection Hsn as <-. reflexivity.
Qed.

(** C9, as amended: for every raw organic result of a response that
    [search_entity_info] receives, at whichever attempt and wherever the
    result stands in the response, a title, link or snippet that is absent
    becomes "N/A" in the hit built for it, and the preprocessor keeps that
    "N/A"; the empty string is the default of the preprocessor alone, for a
    title, url or snippet key absent from a dict of the list it is handed. *)
Theorem absent_fields_default {E : Env} :
  (forall (entity : string) (k : nat) (s s1 : state) (results : dict)
          (w' : World) (items : list pyval),
      let search := search_params_of entity in
      k < 3 ->
      retried search k s s1 ->
      serp_get_dict search (world s1) = (Return results, w') ->
      lookup_key "organic_results" results = Some (VList items) ->
      items <> [] ->
      forallb isinstance_dict items = true ->
      exists hits : list pyval,
        search_entity_info entity s
        = (Return hits, {| world := w'; trace := trace s1 ++ [EvSearch search] |})
        /\ forall (i : nat) (raw : dict),
            items !! i = Some (VDict raw) ->
            exists t u sn : pyval,
              hits !! i = Some (VDict [("title", t); ("url", u); ("snippet", sn)])
              /\ (lookup_key "title" raw = None -> t = VStr "N/A")
              /\ (lookup_key "link" raw = None -> u = VStr "N/A")
              /\ (lookup_key "snippet" raw = None -> sn = VStr "N/A")
              /\ forall out : list hit,
                  preprocess_search_results (VList hits) = Return out ->
                  exists h : hit,
                    out !! i = Some h
                    /\ (lookup_key "title" raw = None -> title h = "N/A")
                    /\ (lookup_key "link" raw = None -> url h = "N/A")
                    /\ (lookup_key "snippet" raw = None -> snippet h = "N/A"))
  /\ (forall (items : list pyval) (out : list hit),
         preprocess_search_results (VList items) = Return out ->
         Forall2 (fun d h =>
                    (lookup_key "title" d = None -> title h = EmptyString)
                    /\ (lookup_key "url" d = None -> url h = EmptyString)
                    /\ (lookup_key "snippet" d = None -> snippet h = EmptyString))
                 (dict_entries items) out).
Proof.
  split.
  - intros entity k s s1 results w' items search Hk Hretried Hresp Hitems Hne Hdicts.
    destruct (normalized_exists items Hdicts) as [hits Hall].
    exists hits. split.
    { apply (retried_returns entity k s s1 _ _ Hk Hretried).
      apply search_attempt_spec. exists results. simpl.
      repeat split; [exact Hresp |].
      apply organic_hits_spec. right. exists items. auto. }
    intros i raw Hi.
    destruct (Forall2_lookup_l _ _ _ _ _ Hall Hi) as (hv & Hhv & raw' & Heq & ->).
    injection Heq as <-.
    exists (or_na (lookup_key "title" raw)), (or_na (lookup_key "link" raw)),
      (or_na (lookup_key "snippet" raw)).
    split; [exact Hhv |].
    split; [intros ->; reflexivity |].
    split; [intros ->; reflexivity |].
    split; [intros ->; reflexivity |].
    intros out Hout.
    assert (Hloop : preprocess_loop hits [] = Return out).
    { destruct hits as [| h0 hits]; [| exact Hout].
      inversion Hall; subst. contradiction. }
    apply (preprocess_loop_normalized items hits Hall) in Hloop
      as (out' & -> & Hclean).
    destruct (Forall2_lookup_l _ _ _ _ _ Hclean Hi) as (h & Hh & raw' & Heq & Hc).
    injection Heq as <-.
    exists h. split; [exact Hh |].
    apply clean_hit_na in Hc as (Ht & Hu & Hsn).
    split; [intros Ha; apply Ht; rewrite Ha; reflexivity |].
    split; [intros Ha; apply Hu; rewrite Ha; reflexivity
           | intros Ha; apply Hsn; rewrite Ha; reflexivity].
  - intros items out H.
    assert (Hall : Forall2 (fun d h => clean_result d = Return h)
                           (dict_entries items) out).
    { destruct items as [| item items].
      - injection H as <-. constructor.
      - change (preprocess_loop (item :: items) [] = Return out) in H.
        apply preprocess_loop_cleaned in H as (out' & -> & Hall). exact Hall. }
    eapply Forall2_impl; [exact Hall |].
    intros d h Hd. apply clean_result_absent, Hd.
Qed.

Lemma absent_fields_default_witness :
  let search := @search_params_of Scripted.env "Acme Corp" in
  let response :=
    [("organic_results",
      VList [VDict [("title", VStr " Acme "); ("link", VStr "http://a.example");
                    ("snippet", VStr "a")];
             VDict [("link", VStr "http://b.example")]])] in
  exists (hits : list pyval) (t u sn : pyval),
    @search_entity_info Scripted.env "Acme Corp"
      (Scripted.start ([Return response], []))
    = (Return hits, @State Scripted.env ([], []) [EvSearch search])
    /\ hits !! 1 = Some (VDict [("title", t); ("url", u); ("snippet", sn)])
    /\ t = VStr "N/A"
    /\ sn = VStr "N/A".
Proof.
  intros search response.
  pose (s := Scripted.start ([Return response], [])).
  destruct (proj1 (@absent_fields_default Scripted.env) "Acme Corp" 0 s s
              response ([], [])
              [VDict [("title", VStr " Acme "); ("link", VStr "http://a.example");
                      ("snippet", VStr "a")];
               VDict [("link", VStr "http://b.example")]]
              ltac:(lia) (@retried_none Scripted.env search s)
              eq_refl eq_refl ltac:(discriminate) eq_refl)
    as (hits & Hcall & Hfields).
  destruct (Hfields 1 [("link", VStr "http://b.example")] eq_refl)
    as (t & u & sn & Hhit & Ht & _ & Hsn & _).
  exists hits, t, u, sn.
  split; [exact Hcall |]. split; [exact Hhit |].
  split; [apply Ht | apply Hsn]; reflexivity.
Defined.

(** The claim as written fails: the pipeline turns an absent title into
    "N/A", not into the empty string. *)
Lemma absent_title_not_empty :
  ~ (forall (raw : dict) (h : pyval) (out : hit),
        lookup_key "title" raw = None ->
        organic_hits [("organic_results", VList [VDict raw])] = Return [h] ->
        preprocess_search_results (VList [h]) = Return [out] ->
        title out = EmptyString).
Proof.
  intros Hclaim.
  specialize (Hclaim [("link", VStr "http://example.org")]
                     (VDict [("title", VStr "N/A"); ("url", VStr "http://example.org");
                             ("snippet", VStr "N/A")])
                     (Hit "N/A" "http://example.org" "N/A")
                     eq_refl eq_refl eq_refl).
  discriminate Hclaim.
Qed.

(** ** The per-entity loop *)

Section Orchestrator.
Context {E : Env}.

Lemma bind_return {A B} (m : M A) (k : A -> M B) (s s' : state) (a : A) :
  m s = (Return a, s') -> (m ≫= k) s = k a s'.
Proof. unfold mbind, M_bind. intros ->. reflexivity. Qed.

Lemma bind_raise {A B} (m : M A) (k : A -> M B) (s s' : state) (e : exn) :
  m s = (Raise e, s') -> (m ≫= k) s = (Raise e, s').
Proof. unfold mbind, M_bind. intros ->. reflexivity. Qed.

(** [safe_api_call] swallows every exception: it always returns. *)
Lemma safe_api_loop_returns {A} (api_function : M A) (attempts : list nat) :
  forall s, exists r s', safe_api_loop api_function attempts s = (Return r, s').
Proof.
  induction attempts as [| attempt rest IH]; intros s.
  - exists None, s. reflexivity.
  - cbn [safe_api_loop]. unfold try_except.
    unfold mbind at 1, M_bind at 1.
    destruct (api_function s) as [[response | e] s1].
    + exists (Some response), s1. reflexivity.
    + rewrite bind_st_error.
      destruct (attempt <? MAX_RETRIES - 1)%nat.
      * rewrite bind_sleep. apply IH.
      * rewrite bind_st_error. apply IH.
Qed.

Lemma safe_api_call_returns {A} (api_function : M A) (s : state) :
  exists r s', safe_api_call api_function s = (Return r, s').
Proof. apply safe_api_loop_returns. Qed.

Lemma safe_api_loop_retry {A} (api_function : M A) (attempt : nat)
  (rest : list nat) (s s' : state) (e : exn) :
  api_function s = (Raise e, s') ->
  safe_api_loop api_function (attempt :: rest) s
  = safe_api_loop api_function rest
      (if (attempt <? MAX_RETRIES - 1)%nat
       then snd (sleep (RATE_LIMIT_DELAY * 2 ^ Z.of_nat attempt)
                       (snd (st_error (AttemptFailed (attempt + 1) MAX_RETRIES e) s')))
       else snd (st_error AllRetriesFailed
                   (snd (st_error (AttemptFailed (attempt + 1) MAX_RETRIES e) s')))).
Proof.
  intros H. cbn [safe_api_loop].
  rewrite (try_except_raise _ _ s s' e) by (apply bind_raise, H).
  rewrite bind_st_error.
  destruct (attempt <? MAX_RETRIES - 1)%nat;
    [rewrite bind_sleep | rewrite bind_st_error]; reflexivity.
Qed.

(** Three raised attempts in a row make [safe_api_call] return [None]. *)
Lemma safe_api_call_exhausted {A} (api_function : M A)
  (s0 s1 s2 s3 : state) (e1 e2 e3 : exn) :
  api_function s0 = (Raise e1, s1) ->
  api_function (snd (sleep 2 (snd (st_error (AttemptFailed 1 3 e1) s1))))
  = (Raise e2, s2) ->
  api_function (snd (sleep 4 (snd (st_error (AttemptFailed 2 3 e2) s2))))
  = (Raise e3, s3) ->
  safe_api_call api_function s0
  = (Return None,
     snd (st_error AllRetriesFailed (snd (st_error (AttemptFailed 3 3 e3) s3)))).
Proof.
  intros H1 H2 H3. unfold safe_api_call.
  change (range MAX_RETRIES) with [0; 1; 2]%nat.
  rewrite (safe_api_loop_retry _ _ _ _ _ _ H1).
  rewrite (safe_api_loop_retry _ _ _ _ _ _ H2).
  rewrite (safe_api_loop_retry _ _ _ _ _ _ H3).
  reflexivity.
Qed.

(** The body of the loop when the search step hands back nothing. *)
Lemma process_entity_nothing (query_template entity : string)
  (results : list row) (s s' : state) (web_result : option (list pyval)) :
  safe_api_call (search_entity_info entity) s = (Return web_result, s') ->
  web_result = None \/ web_result = Some [] ->
  process_entity query_template entity results s
  = (Return (results ++ [not_found_row entity (perform_ner entity)
                                       (classify_query query_template)]),
     snd (sleep RATE_LIMIT_DELAY s')).
Proof.
  intros Hsearch Hnothing. unfold process_entity.
  rewrite (bind_return _ _ _ _ _ Hsearch).
  destruct Hnothing as [-> | ->]; reflexivity.
Qed.

(** The body of the loop when the search step hands back hits. *)
Lemma process_entity_found (query_template entity : string)
  (results : list row) (s s1 s2 : state) (first : pyval) (others : list pyval)
  (preprocessed_results : list hit) (extracted_info : option (option string)) :
  safe_api_call (search_entity_info entity) s
  = (Return (Some (first :: others)), s1) ->
  preprocess_search_results (VList (first :: others))
  = Return preprocessed_results ->
  safe_api_call (extract_information_with_groq entity preprocessed_results
                   query_template (classify_query query_template)) s1
  = (Return extracted_info, s2) ->
  process_entity query_template entity results s
  = (Return (results ++ [found_row entity extracted_info preprocessed_results
                                   (perform_ner entity)
                                   (classify_query query_template)]),
     snd (sleep RATE_LIMIT_DELAY s2)).
Proof.
  intros Hsearch Hpre Hextract. unfold process_entity.
  rewrite (bind_return _ _ _ _ _ Hsearch).
  unfold mbind at 1, M_bind at 1.
  unfold mbind at 1, M_bind at 1.
  unfold lift at 1. rewrite Hpre.
  unfold mbind at 1, M_bind at 1. rewrite Hextract. reflexivity.
Qed.

Lemma run_loop_step (query_template entity : string) (rest : list string)
  (results results' : list row) (s s' : state) :
  process_entity query_template entity results s = (Return results', s') ->
  run_loop query_template (entity :: rest) results s
  = run_loop query_template rest results' s'.
Proof. intros H. cbn [run_loop]. apply (bind_return _ _ _ _ _ H). Qed.

End Orchestrator.

(** C4: when the search step of an entity comes back with nothing (every
    attempt raised, so [safe_api_call] returned None, or the hit list is
    empty), the loop still appends a row for the entity, with
    "No search results found", empty title, url and snippet fields, and the
    NER results and query type computed before the search; it then sleeps
    and goes on with the next entity. *)
Theorem search_failure_row {E : Env} (query_template entity : string)
  (rest : list string) (results : list row) (s s' : state)
  (web_result : option (list pyval)) :
  safe_api_call (search_entity_info entity) s = (Return web_result, s') ->
  web_result = None \/ web_result = Some [] ->
  let r := {| Entity := entity;
              Extracted_Information := "No search results found";
              Search_Title := EmptyString;
              Search_URL := EmptyString;
              Search_Snippet := EmptyString;
              NER_Results := perform_ner entity;
              Query_Type := classify_query query_template |} in
  process_entity query_template entity results s
  = (Return (results ++ [r]), snd (sleep RATE_LIMIT_DELAY s'))
  /\ run_loop query_template (entity :: rest) results s
     = run_loop query_template rest (results ++ [r])
         (snd (sleep RATE_LIMIT_DELAY s')).
Proof.
  intros Hsearch Hnothing r.
  pose proof (process_entity_nothing query_template entity results s s'
                web_result Hsearch Hnothing) as Hbody.
  split; [exact Hbody |].
  apply run_loop_step. exact Hbody.
Qed.

Lemma search_failure_row_witness :
  let template := "Extract the net worth of {entity}" in
  let r := fun entity =>
    {| Entity := entity;
       Extracted_Information := "No search results found";
       Search_Title := EmptyString;
       Search_URL := EmptyString;
       Search_Snippet := EmptyString;
       NER_Results := @perform_ner Scripted.env entity;
       Query_Type := "Net Worth" |} in
  fst (@process_entity Scripted.env template "Acme Corp" []
         (Scripted.start ([], [])))
  = Return [r "Acme Corp"]
  /\ fst (@process_entity Scripted.env template "Initech" [r "Acme Corp"]
            (Scripted.start ([Return [("organic_results", VList [])]], [])))
     = Return [r "Acme Corp"; r "Initech"].
Proof.
  intros template r. split.
  - pose (s := Scripted.start ([], [])).
    destruct (@search_failure_row Scripted.env template "Acme Corp" [] [] s
                (snd (safe_api_call (@search_entity_info Scripted.env "Acme Corp") s))
                None eq_refl (or_introl eq_refl)) as [Hbody _].
    fold s. rewrite Hbody. reflexivity.
  - pose (s := Scripted.start ([Return [("organic_results", VList [])]], [])).
    destruct (@search_failure_row Scripted.env template "Initech" []
                [r "Acme Corp"] s
                (snd (safe_api_call (@search_entity_info Scripted.env "Initech") s))
                (Some []) eq_refl (or_intror eq_refl)) as [Hbody _].
    fold s. rewrite Hbody. reflexivity.
Defined.

(** C10: when the search step hands back hits and the extraction step
    fails on every outer attempt ([safe_api_call] returns None), the row of
    the entity records "Failed to extract" and keeps the title, url and
    snippet fields joined from the preprocessed results; the loop then
    sleeps and goes on with the next entity. *)
Theorem extraction_failure_row {E : Env} (query_template entity : string)
  (rest : list string) (results : list row) (s s1 s2 : state)
  (first : pyval) (others : list pyval) (preprocessed_results : list hit) :
  safe_api_call (search_entity_info entity) s
  = (Return (Some (first :: others)), s1) ->
  preprocess_search_results (VList (first :: others))
  = Return preprocessed_results ->
  safe_api_call (extract_information_with_groq entity preprocessed_results
                   query_template (classify_query query_template)) s1
  = (Return None, s2) ->
  let r := {| Entity := entity;
              Extracted_Information := "Failed to extract";
              Search_Title := join ", " (map title preprocessed_results);
              Search_URL := join ", " (map url preprocessed_results);
              Search_Snippet := join ", " (map snippet preprocessed_results);
              NER_Results := perform_ner entity;
              Query_Type := classify_query query_template |} in
  process_entity query_template entity results s
  = (Return (results ++ [r]), snd (sleep RATE_LIMIT_DELAY s2))
  /\ run_loop query_template (entity :: rest) results s
     = run_loop query_template rest (results ++ [r])
         (snd (sleep RATE_LIMIT_DELAY s2)).
Proof.
  intros Hsearch Hpre Hextract r.
  pose proof (process_entity_found query_template entity results s s1 s2
                first others preprocessed_results None
                Hsearch Hpre Hextract) as Hbody.
  split; [exact Hbody |].
  apply run_loop_step. exact Hbody.
Qed.

Lemma extraction_failure_row_witness :
  let template := "Extract the net worth of {entity}" in
  fst (@process_entity Scripted.env template "Acme Corp" []
         (Scripted.start ([Return (Scripted.organic 2)], [])))
  = Return [{| Entity := "Acme Corp";
               Extracted_Information := "Failed to extract";
               Search_Title := "N/A, N/A";
               Search_URL := "http://example.org, http://example.org";
               Search_Snippet := "N/A, N/A";
               NER_Results := @perform_ner Scripted.env "Acme Corp";
               Query_Type := "Net Worth" |}].
Proof.
  intros template.
  pose (s := Scripted.start ([Return (Scripted.organic 2)], [])).
  pose (raw := VDict [("title", VStr "N/A"); ("url", VStr "http://example.org");
                      ("snippet", VStr "N/A")]).
  pose (pre := [Hit "N/A" "http://example.org" "N/A";
                Hit "N/A" "http://example.org" "N/A"]).
  pose (s1 := snd (safe_api_call (@search_entity_info Scripted.env "Acme Corp") s)).
  destruct (@extraction_failure_row Scripted.env template "Acme Corp" [] [] s s1
              (snd (safe_api_call
                      (@extract_information_with_groq Scripted.env "Acme Corp" pre
                         template (classify_query template)) s1))
              raw [raw] pre eq_refl eq_refl eq_refl) as [Hbody _].
  fold s. rewrite Hbody. reflexivity.
Defined.

(** * Further properties of the code *)

(** ** safe_api_call *)

Section SafeApiCall.
Context {E : Env}.

Lemma safe_api_loop_success {A} (api_function : M A) (attempt : nat)
  (rest : list nat) (s s' : state) (response : A) :
  api_function s = (Return response, s') ->
  safe_api_loop api_function (attempt :: rest) s = (Return (Some response), s').
Proof.
  intros H. cbn [safe_api_loop].
  apply try_except_return. rewrite (bind_return _ _ _ _ _ H). reflexivity.
Qed.

Lemma safe_api_loop_failure {A} (api_function : M A) (attempt : nat)
  (rest : list nat) (s s' : state) (e : exn) :
  api_function s = (Raise e, s') ->
  safe_api_loop api_function (attempt :: rest) s
  = safe_api_loop api_function rest (after_failure attempt e s').
Proof. intros H. apply (safe_api_loop_retry _ _ _ _ _ _ H). Qed.

End SafeApiCall.

(** X1: [safe_api_call] never raises, whatever the wrapped function does:
    every call returns, a response or None. *)
Theorem safe_api_call_never_raises {E : Env} {A} (api_function : M A) (s : state) :
  forall (e : exn) (s' : state), safe_api_call api_function s <> (Raise e, s').
Proof.
  intros e s' Hraise.
  destruct (safe_api_loop_returns api_function (range App.MAX_RETRIES) s)
    as (r & s1 & Hreturn).
  unfold safe_api_call in Hraise. rewrite Hreturn in Hraise. discriminate Hraise.
Qed.

(** [safe_api_call] takes its own [return None] exactly after three raised
    attempts in a row. *)
Lemma safe_api_call_exhausted_iff {E : Env} {A} (api_function : M A) (s s' : state) :
  safe_api_call api_function s = (Return None, s')
  <-> exists (s1 s2 s3 : state) (e1 e2 e3 : exn),
      api_function s = (Raise e1, s1)
      /\ api_function (after_failure 0 e1 s1) = (Raise e2, s2)
      /\ api_function (after_failure 1 e2 s2) = (Raise e3, s3)
      /\ s' = after_failure 2 e3 s3
      /\ trace s' = trace s3 ++ [EvStError (AttemptFailed 3 3 e3);
                                 EvStError AllRetriesFailed]
      /\ trace (after_failure 0 e1 s1)
         = trace s1 ++ [EvStError (AttemptFailed 1 3 e1); EvSleep 2]
      /\ trace (after_failure 1 e2 s2)
         = trace s2 ++ [EvStError (AttemptFailed 2 3 e2); EvSleep 4].
Proof.
  unfold safe_api_call. change (range App.MAX_RETRIES) with [0; 1; 2]%nat.
  split.
  - intros H.
    destruct (api_function s) as [[r1 | e1] s1] eqn:H1;
      [rewrite (safe_api_loop_success _ _ _ _ _ _ H1) in H; discriminate H |].
    rewrite (safe_api_loop_failure _ _ _ _ _ _ H1) in H.
    destruct (api_function (after_failure 0 e1 s1)) as [[r2 | e2] s2] eqn:H2;
      [rewrite (safe_api_loop_success _ _ _ _ _ _ H2) in H; discriminate H |].
    rewrite (safe_api_loop_failure _ _ _ _ _ _ H2) in H.
    destruct (api_function (after_failure 1 e2 s2)) as [[r3 | e3] s3] eqn:H3;
      [rewrite (safe_api_loop_success _ _ _ _ _ _ H3) in H; discriminate H |].
    rewrite (safe_api_loop_failure _ _ _ _ _ _ H3) in H.
    injection H as <-.
    exists s1, s2, s3, e1, e2, e3.
    split; [reflexivity |]. split; [exact H2 |]. split; [exact H3 |].
    split; [reflexivity |].
    unfold after_failure; simpl; rewrite <- !app_assoc; auto.
  - intros (s1 & s2 & s3 & e1 & e2 & e3 & H1 & H2 & H3 & -> & _).
    rewrite (safe_api_loop_failure _ _ _ _ _ _ H1).
    rewrite (safe_api_loop_failure _ _ _ _ _ _ H2).
    rewrite (safe_api_loop_failure _ _ _ _ _ _ H3).
    reflexivity.
Qed.

Lemma safe_api_call_response_from {E : Env} {A} (api_function : M A)
  (s s' : state) (response : A) :
  safe_api_call api_function s = (Return (Some response), s') ->
  exists s0 : state, api_function s0 = (Return response, s').
Proof.
  unfold safe_api_call. change (range App.MAX_RETRIES) with [0; 1; 2]%nat.
  intros H.
  destruct (api_function s) as [[r1 | e1] s1] eqn:H1.
  { rewrite (safe_api_loop_success _ _ _ _ _ _ H1) in H.
    injection H as <- <-. eauto. }
  rewrite (safe_api_loop_failure _ _ _ _ _ _ H1) in H.
  destruct (api_function (after_failure 0 e1 s1)) as [[r2 | e2] s2] eqn:H2.
  { rewrite (safe_api_loop_success _ _ _ _ _ _ H2) in H.
    injection H as <- <-. eauto. }
  rewrite (safe_api_loop_failure _ _ _ _ _ _ H2) in H.
  destruct (api_function (after_failure 1 e2 s2)) as [[r3 | e3] s3] eqn:H3.
  { rewrite (safe_api_loop_success _ _ _ _ _ _ H3) in H.
    injection H as <- <-. eauto. }
  rewrite (safe_api_loop_failure _ _ _ _ _ _ H3) in H. discriminate H.
Qed.

(** X2: around a function that never returns None itself, what
    [safe_api_call] hands back is None exactly when the function raised on
    three attempts in a row; by then it has logged each failure and
    "All retries failed", and slept 2 and 4 seconds between the attempts.
    (A response that is None is handed back as it is and cannot be told
    from the None of the exhausted retries: hence the condition.) *)
Theorem safe_api_call_none_iff {E : Env} {A} (is_none : A -> bool)
  (api_function : M A) (s s' : state) (r : option A) :
  (forall (s0 s1 : state) (response : A),
      api_function s0 = (Return response, s1) -> is_none response = false) ->
  safe_api_call api_function s = (Return r, s') ->
  (returns_none is_none r = true
   <-> exists (s1 s2 s3 : state) (e1 e2 e3 : exn),
       api_function s = (Raise e1, s1)
       /\ api_function (after_failure 0 e1 s1) = (Raise e2, s2)
       /\ api_function (after_failure 1 e2 s2) = (Raise e3, s3)
       /\ s' = after_failure 2 e3 s3
       /\ trace s' = trace s3 ++ [EvStError (AttemptFailed 3 3 e3);
                                  EvStError AllRetriesFailed]
       /\ trace (after_failure 0 e1 s1)
          = trace s1 ++ [EvStError (AttemptFailed 1 3 e1); EvSleep 2]
       /\ trace (after_failure 1 e2 s2)
          = trace s2 ++ [EvStError (AttemptFailed 2 3 e2); EvSleep 4]).
Proof.
  intros Hnever Hcall.
  rewrite <- (safe_api_call_exhausted_iff api_function s s').
  destruct r as [response |]; simpl.
  - destruct (safe_api_call_response_from api_function s s' response Hcall)
      as [s0 Hresponse].
    rewrite (Hnever s0 s' response Hresponse).
    split; [discriminate |]. intros Hnone. rewrite Hnone in Hcall. discriminate Hcall.
  - split; [intros _; exact Hcall | reflexivity].
Qed.

Lemma safe_api_call_none_iff_witness :
  exists (s1 s2 s3 : @state Scripted.env) (e1 e2 e3 : exn),
    @search_entity_info Scripted.env "Acme Corp" (Scripted.start ([], []))
    = (Raise e1, s1)
    /\ @search_entity_info Scripted.env "Acme Corp" (after_failure 0 e1 s1)
       = (Raise e2, s2)
    /\ @search_entity_info Scripted.env "Acme Corp" (after_failure 1 e2 s2)
       = (Raise e3, s3).
Proof.
  pose (s := Scripted.start ([], [])).
  pose (api := @search_entity_info Scripted.env "Acme Corp").
  destruct (proj1 (@safe_api_call_none_iff Scripted.env _ (fun _ => false) api s
                     (snd (safe_api_call api s)) None
                     (fun _ _ _ _ => eq_refl) eq_refl) eq_refl)
    as (s1 & s2 & s3 & e1 & e2 & e3 & H1 & H2 & H3 & _).
  exists s1, s2, s3, e1, e2, e3. auto.
Defined.



(** ** The retry loops, whatever the outcome *)

Lemma searches_app (tr1 tr2 : list event) :
  searches (tr1 ++ tr2) = searches tr1 + searches tr2.
Proof.
  induction tr1 as [| ev tr1 IH]; [reflexivity |].
  destruct ev; simpl; rewrite IH; reflexivity.
Qed.

Lemma chats_app (tr1 tr2 : list event) :
  chats (tr1 ++ tr2) = chats tr1 + chats tr2.
Proof.
  induction tr1 as [| ev tr1 IH]; [reflexivity |].
  destruct ev; simpl; rewrite IH; reflexivity.
Qed.

Lemma st_errors_app (tr1 tr2 : list event) :
  st_errors (tr1 ++ tr2) = st_errors tr1 + st_errors tr2.
Proof.
  induction tr1 as [| ev tr1 IH]; [reflexivity |].
  destruct ev; simpl; rewrite IH; reflexivity.
Qed.

Lemma slept_app (tr1 tr2 : list event) :
  slept (tr1 ++ tr2) = (slept tr1 + slept tr2)%Z.
Proof.
  induction tr1 as [| ev tr1 IH]; [reflexivity |].
  destruct ev; simpl; rewrite IH; lia.
Qed.

(** X4: whatever the outcome, [search_entity_info] calls the provider
    once, twice or three times, sleeps 2 seconds before the second call and
    4 seconds before the third, and never after its last call; it raises
    only after a third failed call, and then the wrapped
    "Error performing search" exception. *)
Theorem search_entity_info_attempts {E : Env} (entity : string)
  (s s' : state) (r : Py.result (list pyval)) :
  search_entity_info entity s = (r, s') ->
  let call := EvSearch (search_params_of entity) in
  (trace s' = trace s ++ [call]
   \/ trace s' = trace s ++ [call; EvSleep 2; call]
   \/ trace s' = trace s ++ [call; EvSleep 2; call; EvSleep 4; call])
  /\ (forall e : exn,
         r = Raise e ->
         trace s' = trace s ++ [call; EvSleep 2; call; EvSleep 4; call]
         /\ exists cause : exn, e = Wrapped "Error performing search: " cause).
Proof.
  intros H call. unfold search_entity_info in H.
  change (range DataProcessing.MAX_RETRIES) with [0; 1; 2]%nat in H.
  set (search := search_params_of entity) in *.
  destruct (search_attempt search s) as [[hits1 | e1] s1] eqn:H1.
  { rewrite (search_loop_return _ _ _ _ _ _ H1) in H. injection H as <- <-.
    apply search_attempt_trace in H1.
    split; [left; exact H1 | intros e He; discriminate He]. }
  rewrite (search_loop_retry _ _ _ _ _ _ H1) in H by reflexivity.
  destruct (search_attempt search (snd (sleep (RETRY_DELAY * 2 ^ Z.of_nat 0) s1)))
    as [[hits2 | e2] s2] eqn:H2.
  { rewrite (search_loop_return _ _ _ _ _ _ H2) in H. injection H as <- <-.
    apply search_attempt_trace in H1, H2.
    split; [right; left | intros e He; discriminate He].
    rewrite H2. simpl. rewrite H1, <- !app_assoc. reflexivity. }
  rewrite (search_loop_retry _ _ _ _ _ _ H2) in H by reflexivity.
  assert (Hshape : forall r3 s3,
             search_attempt search (snd (sleep (RETRY_DELAY * 2 ^ Z.of_nat 1) s2))
             = (r3, s3) ->
             trace s3 = trace s ++ [call; EvSleep 2; call; EvSleep 4; call]).
  { intros r3 s3 H3. apply search_attempt_trace in H1, H2, H3.
    rewrite H3. simpl. rewrite H2. simpl. rewrite H1, <- !app_assoc. reflexivity. }
  destruct (search_attempt search (snd (sleep (RETRY_DELAY * 2 ^ Z.of_nat 1) s2)))
    as [[hits3 | e3] s3] eqn:H3.
  { rewrite (search_loop_return _ _ _ _ _ _ H3) in H. injection H as <- <-.
    split; [right; right; eapply Hshape; reflexivity | intros e He; discriminate He]. }
  rewrite (search_loop_give_up _ _ _ _ _ _ H3) in H by reflexivity.
  injection H as <- <-.
  split; [right; right; eapply Hshape; reflexivity |].
  intros e He. injection He as <-.
  split; [eapply Hshape; reflexivity | exists e3; reflexivity].
Qed.

Lemma search_entity_info_attempts_witness :
  let s := Scripted.start ([Raise (ProviderError "timeout");
                            Return (Scripted.organic 1)], []) in
  let call := EvSearch (@search_params_of Scripted.env "Acme Corp") in
  trace (snd (@search_entity_info Scripted.env "Acme Corp" s))
  = [call; EvSleep 2; call].
Proof.
  intros s call.
  destruct (@search_entity_info_attempts Scripted.env "Acme Corp" s
              (snd (@search_entity_info Scripted.env "Acme Corp" s))
              (fst (@search_entity_info Scripted.env "Acme Corp" s)) eq_refl)
    as [[H | [H | H]] _]; [discriminate H | exact H | discriminate H].
Defined.

(** ** Retries nested in retries *)

Section ProviderDown.
Context {E : Env}.
Variable entity : string.
Variable down : World -> Prop.
Hypothesis down_fails :
  forall w : World, down w ->
    exists (e : exn) (w' : World),
      serp_get_dict (search_params_of entity) w = (Raise e, w') /\ down w'.

Lemma search_attempt_down (s : state) :
  down (world s) ->
  exists (e : exn) (s' : state),
    search_attempt (search_params_of entity) s = (Raise e, s')
    /\ down (world s').
Proof.
  intros Hs. destruct (down_fails (world s) Hs) as (e & w' & Hdown & Hw').
  exists e, {| world := w'; trace := trace s ++ [EvSearch (search_params_of entity)] |}.
  split; [| exact Hw'].
  unfold search_attempt, mbind, M_bind, get_dict. rewrite Hdown. reflexivity.
Qed.

Lemma search_entity_info_down (s : state) :
  down (world s) ->
  exists (e : exn) (s' : state),
    search_entity_info entity s = (Raise e, s')
    /\ down (world s')
    /\ searches (trace s') = searches (trace s) + 3
    /\ slept (trace s') = (slept (trace s) + 6)%Z
    /\ st_errors (trace s') = st_errors (trace s).
Proof.
  intros Hs.
  destruct (search_attempt_down s Hs) as (e1 & s1 & H1 & Hs1).
  destruct (search_attempt_down (snd (sleep 2 s1)) Hs1) as (e2 & s2 & H2 & Hs2).
  destruct (search_attempt_down (snd (sleep 4 s2)) Hs2) as (e3 & s3 & H3 & Hs3).
  destruct (search_loop_exhausted _ _ _ _ _ _ _ _ H1 H2 H3) as [Hraise Htrace].
  exists (Wrapped "Error performing search: " e3), s3.
  split; [exact Hraise |]. split; [exact Hs3 |].
  rewrite Htrace, searches_app, slept_app, st_errors_app. simpl.
  repeat split; lia.
Qed.

End ProviderDown.

(** X5: while the provider fails on every call, the search step of the
    loop, [safe_api_call(search_entity_info, entity)], calls it nine times
    (three outer attempts of three inner ones), sleeps 24 seconds in all,
    reports four errors on the dashboard and returns None. *)
Theorem nested_retry_provider_down {E : Env} (entity : string)
  (down : World -> Prop) (s : state) :
  (forall w : World, down w ->
     exists (e : exn) (w' : World),
       serp_get_dict (search_params_of entity) w = (Raise e, w') /\ down w') ->
  down (world s) ->
  exists s' : state,
    safe_api_call (search_entity_info entity) s = (Return None, s')
    /\ searches (trace s') = searches (trace s) + 9
    /\ slept (trace s') = (slept (trace s) + 24)%Z
    /\ st_errors (trace s') = st_errors (trace s) + 4.
Proof.
  intros Hdown Hs.
  destruct (search_entity_info_down entity down Hdown s Hs)
    as (e1 & s1 & H1 & Hs1 & Hc1 & Hz1 & He1).
  destruct (search_entity_info_down entity down Hdown (after_failure 0 e1 s1) Hs1)
    as (e2 & s2 & H2 & Hs2 & Hc2 & Hz2 & He2).
  destruct (search_entity_info_down entity down Hdown (after_failure 1 e2 s2) Hs2)
    as (e3 & s3 & H3 & Hs3 & Hc3 & Hz3 & He3).
  exists (after_failure 2 e3 s3). split.
  - exact (safe_api_call_exhausted _ s s1 s2 s3 e1 e2 e3 H1 H2 H3).
  - unfold after_failure in *. simpl in *.
    rewrite !searches_app, !slept_app, !st_errors_app in *. simpl in *.
    change (RATE_LIMIT_DELAY * 2 ^ Z.of_nat 0)%Z with 2%Z in *.
    change (RATE_LIMIT_DELAY * 2 ^ Z.of_nat 1)%Z with 4%Z in *.
    repeat split; lia.
Qed.

Lemma nested_retry_provider_down_witness :
  exists s' : @state Scripted.env,
    safe_api_call (@search_entity_info Scripted.env "Acme Corp")
                  (Scripted.start ([], [])) = (Return None, s')
    /\ searches (trace s') = 9
    /\ slept (trace s') = 24%Z
    /\ st_errors (trace s') = 4.
Proof.
  apply (@nested_retry_provider_down Scripted.env "Acme Corp"
           (fun w => fst w = []) (Scripted.start ([], []))).
  - intros [queue chat] Hqueue. simpl in Hqueue. subst queue.
    exists (ProviderError "connection refused"), ([], chat).
    split; reflexivity.
  - reflexivity.
Defined.

(** ** The extraction client *)

Section Extraction.
Context {E : Env}.

Lemma extract_attempt_stripped (prompt : string) (s s' : state) (content : string) :
  extract_attempt prompt s = (Return content, s') -> strip content = content.
Proof.
  unfold extract_attempt, mbind, M_bind, chat_completions_create, lift.
  destruct (groq_create (chat_request_of prompt) (world s)) as [[choices | e] w];
    [| discriminate].
  destruct choices as [| [first |] others]; simpl; intros H; try discriminate H.
  injection H as <- _. apply strip_idem.
Qed.

Lemma extract_information_with_groq_no_client
  (entity : string) (search_results : list hit)
  (query_template query_type : string) (s : state) (e : exn) :
  groq_client GROQ_API_KEY = Raise e ->
  extract_information_with_groq entity search_results query_template query_type s
  = (Raise e, s).
Proof.
  intros Hclient. unfold extract_information_with_groq.
  unfold mbind at 1, M_bind at 1, lift. rewrite Hclient. reflexivity.
Qed.

End Extraction.

(** X6: whenever [extract_information_with_groq] returns, it returns a
    string (never None) that carries no surrounding whitespace, after one
    to three calls of the model. *)
Theorem extract_information_returns_stripped {E : Env}
  (entity : string) (search_results : list hit)
  (query_template query_type : string) (s s' : state) (r : option string) :
  extract_information_with_groq entity search_results query_template query_type s
  = (Return r, s') ->
  exists content : string,
    r = Some content
    /\ strip content = content
    /\ chats (trace s) < chats (trace s') <= chats (trace s) + 3.
Proof.
  intros H.
  destruct (groq_client GROQ_API_KEY) as [[] | e] eqn:Hclient;
    [| rewrite (extract_information_with_groq_no_client _ _ _ _ _ _ Hclient) in H;
       discriminate H].
  rewrite (extract_information_with_groq_run _ _ _ _ _ Hclient) in H.
  set (prompt := prompt_of _ _ _ _) in H.
  change (range DataProcessing.MAX_RETRIES) with [0; 1; 2]%nat in H.
  destruct (extract_attempt prompt s) as [[c1 | e1] s1] eqn:H1.
  { rewrite (extract_loop_return _ _ _ _ _ _ H1) in H. injection H as <- <-.
    exists c1. split; [reflexivity |].
    split; [eapply extract_attempt_stripped, H1 |].
    apply extract_attempt_trace in H1. rewrite H1, chats_app. simpl. lia. }
  rewrite (extract_loop_retry _ _ _ _ _ _ H1) in H by reflexivity.
  destruct (extract_attempt prompt (snd (sleep (RETRY_DELAY * 2 ^ Z.of_nat 0) s1)))
    as [[c2 | e2] s2] eqn:H2.
  { rewrite (extract_loop_return _ _ _ _ _ _ H2) in H. injection H as <- <-.
    exists c2. split; [reflexivity |].
    split; [eapply extract_attempt_stripped, H2 |].
    apply extract_attempt_trace in H1, H2.
    rewrite H2. simpl. rewrite H1, !chats_app. simpl. lia. }
  rewrite (extract_loop_retry _ _ _ _ _ _ H2) in H by reflexivity.
  destruct (extract_attempt prompt (snd (sleep (RETRY_DELAY * 2 ^ Z.of_nat 1) s2)))
    as [[c3 | e3] s3] eqn:H3.
  { rewrite (extract_loop_return _ _ _ _ _ _ H3) in H. injection H as <- <-.
    exists c3. split; [reflexivity |].
    split; [eapply extract_attempt_stripped, H3 |].
    apply extract_attempt_trace in H1, H2, H3.
    rewrite H3. simpl. rewrite H2. simpl. rewrite H1, !chats_app. simpl. lia. }
  rewrite (extract_loop_give_up _ _ _ _ _ _ H3) in H by reflexivity.
  discriminate H.
Qed.

Lemma extract_information_returns_stripped_witness :
  let s := Scripted.start
             ([], [Raise (ProviderError "rate limit");
                   Return [Some ("  1.2 billion USD" +:+ nl)]]) in
  exists content : string,
    fst (@extract_information_with_groq Scripted.env "Acme Corp"
           [Hit "A" "http://a.example" "a"]
           "Extract the net worth of {entity}" "Net Worth" s)
    = Return (Some content)
    /\ strip content = content.
Proof.
  intros s.
  destruct (@extract_information_returns_stripped Scripted.env "Acme Corp"
              [Hit "A" "http://a.example" "a"]
              "Extract the net worth of {entity}" "Net Worth" s
              (snd (@extract_information_with_groq Scripted.env "Acme Corp"
                      [Hit "A" "http://a.example" "a"]
                      "Extract the net worth of {entity}" "Net Worth" s))
              (Some "1.2 billion USD") eq_refl)
    as (content & Hcontent & Hstripped & _).
  exists content. split; [rewrite <- Hcontent; reflexivity | exact Hstripped].
Defined.

(** X7: when the Groq client cannot be built (say, no API key), the
    extraction step of the loop still goes through its three outer
    attempts: it sleeps 6 seconds, reports four errors, never calls the
    model, and returns None. *)
Theorem extraction_without_client {E : Env}
  (entity : string) (search_results : list hit)
  (query_template query_type : string) (s : state) (e : exn) :
  groq_client GROQ_API_KEY = Raise e ->
  exists s' : state,
    safe_api_call (extract_information_with_groq entity search_results
                     query_template query_type) s
    = (Return None, s')
    /\ world s' = world s
    /\ trace s' = trace s ++ [EvStError (AttemptFailed 1 3 e); EvSleep 2;
                              EvStError (AttemptFailed 2 3 e); EvSleep 4;
                              EvStError (AttemptFailed 3 3 e);
                              EvStError AllRetriesFailed].
Proof.
  intros Hclient.
  pose proof (extract_information_with_groq_no_client entity search_results
                query_template query_type) as Hraise.
  exists (after_failure 2 e (after_failure 1 e (after_failure 0 e s))).
  split; [| split].
  - apply (safe_api_call_exhausted _ s s (after_failure 0 e s)
             (after_failure 1 e (after_failure 0 e s)) e e e);
      apply Hraise, Hclient.
  - reflexivity.
  - unfold after_failure. simpl. rewrite <- !app_assoc. reflexivity.
Qed.

Lemma extraction_without_client_witness :
  let keyless : Env :=
    {| World := unit;
       SERP_API_KEY := None;
       GROQ_API_KEY := None;
       serp_get_dict := fun _ w => (Raise (ProviderError "no key"), w);
       groq_client := @groq_client Scripted.env;
       groq_create := fun _ w => (Raise (ProviderError "no key"), w);
       nlp := fun _ => [] |} in
  fst (safe_api_call (@extract_information_with_groq keyless "Acme Corp" []
                        "Extract the net worth of {entity}" "Net Worth")
                     (@State keyless tt []))
  = Return None.
Proof.
  intros keyless.
  destruct (@extraction_without_client keyless "Acme Corp" []
              "Extract the net worth of {entity}" "Net Worth"
              (@State keyless tt [])
              (ProviderError "the api_key client option must be set") eq_refl)
    as (s' & Hcall & _).
  rewrite Hcall. reflexivity.
Defined.

(** ** Malformed provider responses *)

Lemma map_result_organic_hit_dicts (items : list pyval) :
  forallb isinstance_dict items = true ->
  exists hits, map_result organic_hit items = Return hits.
Proof.
  induction items as [| item items IH]; simpl; intros Hall; [eauto |].
  apply andb_true_iff in Hall as [Hitem Hrest].
  destruct (IH Hrest) as [hits Hhits].
  destruct item; try discriminate Hitem. simpl. rewrite Hhits. simpl. eauto.
Qed.

Lemma Forall2_organic_hit_dicts (items hits : list pyval) :
  Forall2 (fun item h => organic_hit item = Return h) items hits ->
  forallb isinstance_dict items = true.
Proof.
  induction 1 as [| item h items hits Hitem _ IH]; [reflexivity |].
  simpl. rewrite IH. destruct item; try discriminate Hitem. reflexivity.
Qed.

(** X8: the [try] block of [search_entity_info] accepts a response exactly
    when it has no "organic_results" key, or a falsy value under it, or a
    list of dicts; on any other response (a list with an entry that is not
    a dict, a non-empty dict or string, a number) the attempt raises, and so
    counts as a failed attempt. *)
Theorem organic_hits_returns_iff (results : dict) :
  (exists hits, organic_hits results = Return hits)
  <-> match lookup_key "organic_results" results with
      | None => True
      | Some v => truthy v = false \/ well_formed_organic v = true
      end.
Proof.
  unfold organic_hits, has_key, get.
  destruct (lookup_key "organic_results" results) as [v |]; simpl;
    [| split; [intros _; exact I | intros _; eauto]].
  destruct (truthy v) eqn:Htruthy;
    [| split; [intros _; left; reflexivity | intros _; eauto]].
  split.
  - intros [hits H]. right.
    destruct v as [| b | n | s | items | d]; simpl in H; try discriminate H.
    + destruct s as [| c s]; [discriminate Htruthy | discriminate H].
    + simpl. eapply Forall2_organic_hit_dicts, map_result_Forall2, H.
    + destruct d as [| [k v] d]; [discriminate Htruthy | discriminate H].
  - intros [Hfalsy | Hformed]; [discriminate Hfalsy |].
    destruct v as [| b | n | s | items | d]; try discriminate Hformed.
    simpl. apply map_result_organic_hit_dicts, Hformed.
Qed.

(** ** What the preprocessor accepts and returns *)

Section StripSplit.

Lemma append_cons (c : ascii) (s t : string) :
  String c s +:+ t = String c (s +:+ t).
Proof. reflexivity. Qed.

Lemma append_nil_l (s : string) : EmptyString +:+ s = s.
Proof. reflexivity. Qed.

Lemma append_nil_r (s : string) : s +:+ EmptyString = s.
Proof.
  induction s as [| c s IH]; [reflexivity |].
  rewrite append_cons, IH. reflexivity.
Qed.

Lemma append_assoc (s1 s2 s3 : string) :
  (s1 +:+ s2) +:+ s3 = s1 +:+ (s2 +:+ s3).
Proof.
  induction s1 as [| c s1 IH]; [reflexivity |].
  rewrite !append_cons, IH. reflexivity.
Qed.

Lemma lstrip_split (s : string) :
  exists pre, s = pre +:+ lstrip s /\ all_space pre = true.
Proof.
  induction s as [| c s (pre & Hs & Hpre)]; [exists EmptyString; auto |].
  simpl. destruct (is_space c) eqn:Hc.
  - exists (String c pre). rewrite append_cons, <- Hs. simpl. rewrite Hc, Hpre. auto.
  - exists EmptyString. auto.
Qed.

Lemma rstrip_split (s : string) :
  exists suf, s = rstrip s +:+ suf /\ all_space suf = true.
Proof.
  induction s as [| c s (suf & Hs & Hsuf)]; [exists EmptyString; auto |].
  rewrite rstrip_cons. destruct (rstrip s) as [| d r].
  - rewrite append_nil_l in Hs. subst suf. destruct (is_space c) eqn:Hc.
    + exists (String c s). simpl. rewrite Hc, Hsuf. auto.
    + exists s. auto.
  - exists suf. rewrite append_cons, <- Hs. auto.
Qed.

Lemma rstrip_no_trail (s : string) : ends_with_space (rstrip s) = false.
Proof.
  induction s as [| c s IH]; [reflexivity |].
  rewrite rstrip_cons. destruct (rstrip s) as [| d r].
  - destruct (is_space c) eqn:Hc; [reflexivity | simpl; exact Hc].
  - exact IH.
Qed.

Lemma strip_trim_of (s : string) : trim_of s (strip s).
Proof.
  destruct (lstrip_split s) as (pre & Hs & Hpre).
  destruct (rstrip_split (lstrip s)) as (suf & Hl & Hsuf).
  exists pre, suf. unfold strip.
  split; [rewrite <- Hl; exact Hs |].
  split; [exact Hpre |]. split; [exact Hsuf |].
  split; [apply rstrip_no_lead, lstrip_no_lead | apply rstrip_no_trail].
Qed.

End StripSplit.

Lemma clean_result_cleaned_from (d : dict) (h : hit) :
  clean_result d = Return h -> cleaned_from d h.
Proof.
  intros H. apply clean_result_inv in H as (t & u & sn & Ht & Hu & Hsn & ->).
  exists t, u, sn. simpl. auto 10 using strip_trim_of.
Qed.

Lemma clean_result_returns_iff (d : dict) :
  (exists h, clean_result d = Return h) <-> cleanable (VDict d) = true.
Proof.
  unfold clean_result, cleanable, str_or_absent, get.
  destruct (lookup_key "title" d) as [[| | | t | |] |];
    destruct (lookup_key "url" d) as [[| | | u | |] |];
    destruct (lookup_key "snippet" d) as [[| | | sn | |] |];
    simpl; split; intros H; try discriminate H; try reflexivity; eauto;
    destruct H as [h H]; discriminate H.
Qed.

Lemma clean_result_raises (d : dict) (e : exn) :
  clean_result d = Raise e -> exists ty, e = AttributeError ty "strip".
Proof.
  unfold clean_result, get.
  destruct (lookup_key "title" d) as [[| | | t | |] |];
    destruct (lookup_key "url" d) as [[| | | u | |] |];
    destruct (lookup_key "snippet" d) as [[| | | sn | |] |];
    simpl; intros H; try discriminate H; injection H as <-; eauto.
Qed.

Lemma preprocess_loop_returns_iff (items : list pyval) :
  forall acc,
    (exists out, preprocess_loop items acc = Return out)
    <-> forallb cleanable items = true.
Proof.
  induction items as [| item items IH]; intros acc.
  - simpl. split; eauto.
  - destruct item as [| b | n | s | l | d];
      try (simpl; apply IH).
    change (preprocess_loop (VDict d :: items) acc)
      with (rbind (clean_result d)
                  (fun c => preprocess_loop items (acc ++ [c]))).
    change (forallb cleanable (VDict d :: items))
      with (cleanable (VDict d) && forallb cleanable items).
    rewrite andb_true_iff, <- clean_result_returns_iff.
    destruct (clean_result d) as [h | e]; simpl.
    + rewrite (IH (acc ++ [h])). split; [eauto | tauto].
    + split; [intros [out H]; discriminate H | intros [[h H] _]; discriminate H].
Qed.

Lemma preprocess_loop_raises (items : list pyval) :
  forall acc e,
    preprocess_loop items acc = Raise e ->
    exists ty, e = AttributeError ty "strip".
Proof.
  induction items as [| item items IH]; intros acc e H; [discriminate H |].
  destruct item as [| b | n | s | l | d]; try (eapply IH; exact H).
  simpl in H. destruct (clean_result d) as [h | e'] eqn:Hd; simpl in H.
  - eapply IH; exact H.
  - injection H as <-. eapply clean_result_raises, Hd.
Qed.

Lemma preprocess_loop_entries (items : list pyval) :
  forall acc out,
    preprocess_loop items acc = Return out ->
    exists out', out = acc ++ out'
                 /\ Forall2 cleaned_from (dict_entries items) out'.
Proof.
  induction items as [| item items IH]; intros acc out H.
  - injection H as <-. exists []. rewrite app_nil_r. split; [reflexivity | constructor].
  - destruct item as [| b | n | s | l | d]; try (apply IH; exact H).
    simpl in H. destruct (clean_result d) as [h |] eqn:Hd; simpl in H;
      [| discriminate H].
    apply IH in H as (out' & -> & Hall).
    exists (h :: out'). rewrite <- app_assoc. split; [reflexivity |].
    simpl. constructor; [apply clean_result_cleaned_from, Hd | exact Hall].
Qed.

Lemma dict_entries_length (items : list pyval) :
  length (dict_entries items) <= length items.
Proof.
  induction items as [| item items IH]; [reflexivity |].
  destruct item; simpl; lia.
Qed.

Lemma preprocess_list (item : pyval) (items : list pyval) :
  preprocess_search_results (VList (item :: items))
  = preprocess_loop (item :: items) [].
Proof. reflexivity. Qed.

(** X9: on a list, the preprocessor returns exactly when no dict of the
    list binds title, url or snippet to something that is not a string;
    otherwise it raises, and what it raises is the AttributeError of the
    missing [strip]. *)
Theorem preprocess_returns_iff (items : list pyval) :
  ((exists out, preprocess_search_results (VList items) = Return out)
   <-> forallb cleanable items = true)
  /\ (forall e : exn,
         preprocess_search_results (VList items) = Raise e ->
         exists ty : string, e = AttributeError ty "strip").
Proof.
  destruct items as [| item items].
  - split; [split; [reflexivity | intros _; exists []; reflexivity] |].
    intros e H. discriminate H.
  - rewrite preprocess_list. split.
    + apply preprocess_loop_returns_iff.
    + intros e. apply preprocess_loop_raises.
Qed.

(** X10: the list the preprocessor returns has one cleaned result per dict
    of the input list, in the order of the input, the other entries being
    dropped; each field of a cleaned result is the field of its dict (the
    empty string when the key is absent) with the whitespace at both ends
    removed and nothing else changed. *)
Theorem preprocess_cleaned_entries (items : list pyval) (out : list hit) :
  preprocess_search_results (VList items) = Return out ->
  Forall2 cleaned_from (dict_entries items) out
  /\ length out <= length items.
Proof.
  intros H.
  assert (Hall : Forall2 cleaned_from (dict_entries items) out).
  { destruct items as [| item items].
    - injection H as <-. constructor.
    - rewrite preprocess_list in H.
      apply preprocess_loop_entries in H as (out' & -> & Hall). exact Hall. }
  split; [exact Hall |].
  rewrite <- (Forall2_length _ _ _ Hall). apply dict_entries_length.
Qed.

Lemma preprocess_cleaned_entries_witness :
  Forall2 cleaned_from
    [[("title", VStr "  Foo "); ("snippet", VStr "a b ")];
     [("url", VStr "http://b.example")]]
    [Hit "Foo" EmptyString "a b"; Hit EmptyString "http://b.example" EmptyString].
Proof.
  apply (preprocess_cleaned_entries
           [VDict [("title", VStr "  Foo "); ("snippet", VStr "a b ")];
            VStr "noise"; VNone;
            VDict [("url", VStr "http://b.example")]]).
  reflexivity.
Defined.

(** ** generate_query *)

Section GenerateQuery.

Lemma replace_placeholder_cons (entity : string) (c : ascii) (s : string) :
  replace_placeholder entity 0 (String c s)
  = if startswith "{entity}" (String c s)
    then entity +:+ replace_placeholder entity 7 s
    else String c (replace_placeholder entity 0 s).
Proof. reflexivity. Qed.

Lemma contains_cons (sub : string) (c : ascii) (s : string) :
  contains sub (String c s) = startswith sub (String c s) || contains sub s.
Proof. reflexivity. Qed.

(** An occurrence of the placeholder cannot begin before an opening brace
    and reach over it: the brace is the first character of the placeholder
    only. *)
Lemma placeholder_no_overlap (x rest : string) :
  x <> EmptyString ->
  startswith "{entity}" (x +:+ String "{" rest) = true ->
  startswith "{entity}" x = true.
Proof.
  intros Hx H.
  destruct x as [| c1 x]; [contradiction |]. clear Hx.
  rewrite append_cons in H.
  do 7 (destruct x as [| ? x];
        [ rewrite append_nil_l in H; simpl in H;
          repeat (apply andb_true_iff in H as [_ H]); discriminate H
        | rewrite append_cons in H ]).
  simpl in H. simpl. exact H.
Qed.

Lemma replace_placeholder_prefix (entity prefix rest : string) :
  contains "{entity}" prefix = false ->
  replace_placeholder entity 0 (prefix +:+ String "{" rest)
  = prefix +:+ replace_placeholder entity 0 (String "{" rest).
Proof.
  induction prefix as [| c prefix IH]; intros Hnone; [reflexivity |].
  rewrite contains_cons in Hnone. apply orb_false_iff in Hnone as [Hhere Hlater].
  rewrite !append_cons, replace_placeholder_cons.
  destruct (startswith "{entity}" (String c (prefix +:+ String "{" rest))) eqn:Hcross.
  - rewrite <- append_cons in Hcross.
    apply placeholder_no_overlap in Hcross; [| discriminate].
    rewrite Hcross in Hhere. discriminate Hhere.
  - rewrite (IH Hlater). reflexivity.
Qed.

End GenerateQuery.

(** X11: a template without the placeholder "{entity}" is returned as it
    is, whatever the entity. *)
Theorem generate_query_no_placeholder (entity query_template : string) :
  contains "{entity}" query_template = false ->
  generate_query entity query_template = query_template.
Proof.
  unfold generate_query.
  induction query_template as [| c s IH]; intros Hnone; [reflexivity |].
  rewrite contains_cons in Hnone. apply orb_false_iff in Hnone as [Hhere Hlater].
  rewrite replace_placeholder_cons, Hhere, (IH Hlater). reflexivity.
Qed.

Lemma generate_query_no_placeholder_witness :
  generate_query "Acme Corp" "Extract the net worth of {company}"
  = "Extract the net worth of {company}".
Proof. apply generate_query_no_placeholder. reflexivity. Defined.

(** X12: the first placeholder of a template is replaced by the entity as
    it is (the inserted text is not searched again), the text before it is
    kept, and the text after it is treated in the same way. *)
Theorem generate_query_first_placeholder (entity prefix suffix : string) :
  contains "{entity}" prefix = false ->
  generate_query entity (prefix +:+ "{entity}" +:+ suffix)
  = prefix +:+ entity +:+ generate_query entity suffix.
Proof.
  intros Hnone. unfold generate_query.
  change ("{entity}" +:+ suffix) with (String "{" ("entity}" +:+ suffix)).
  rewrite (replace_placeholder_prefix entity prefix _ Hnone).
  reflexivity.
Qed.

Lemma generate_query_first_placeholder_witness :
  generate_query "{entity} Ltd" "Find {entity} and the CEO of {entity}."
  = "Find {entity} Ltd and the CEO of {entity} Ltd.".
Proof.
  change "Find {entity} and the CEO of {entity}."
    with ("Find " +:+ "{entity}" +:+ " and the CEO of {entity}.").
  rewrite (generate_query_first_placeholder "{entity} Ltd" "Find "
             " and the CEO of {entity}.") by reflexivity.
  reflexivity.
Defined.

(** ** The entity map and the classifier, further *)

Lemma foldl_bind_span_some (label span : string) (spans : list ent) :
  forall entities : gmap string string,
    foldl bind_span entities spans !! label = Some span ->
    entities !! label = Some span
    \/ In {| label_ := label; text := span |} spans.
Proof.
  induction spans as [| e spans IH]; intros entities H; [left; exact H |].
  simpl in H. apply IH in H as [H | H]; [| right; right; exact H].
  unfold bind_span in H.
  destruct (decide (label_ e = label)) as [Heq | Hne].
  - rewrite <- Heq, lookup_insert_eq in H. injection H as <-.
    right. left. subst label. destruct e; reflexivity.
  - rewrite lookup_insert_ne in H by exact Hne. left. exact H.
Qed.

Lemma foldl_bind_span_keeps (label : string) (spans : list ent) :
  forall entities : gmap string string,
    is_Some (entities !! label) ->
    is_Some (foldl bind_span entities spans !! label).
Proof.
  induction spans as [| e spans IH]; intros entities H; [exact H |].
  simpl. apply IH. unfold bind_span.
  destruct (decide (label_ e = label)) as [Heq | Hne].
  - rewrite <- Heq, lookup_insert_eq. eauto.
  - rewrite lookup_insert_ne by exact Hne. exact H.
Qed.

Lemma foldl_bind_span_binds (e : ent) (spans : list ent) :
  In e spans ->
  forall entities : gmap string string,
    is_Some (foldl bind_span entities spans !! label_ e).
Proof.
  induction spans as [| e' spans IH]; intros Hin entities; [destruct Hin |].
  simpl. destruct Hin as [-> | Hin]; [| apply IH, Hin].
  apply foldl_bind_span_keeps. unfold bind_span.
  rewrite lookup_insert_eq. eauto.
Qed.

Lemma foldl_bind_span_size (spans : list ent) :
  forall entities : gmap string string,
    size (foldl bind_span entities spans) <= size entities + length spans.
Proof.
  induction spans as [| e spans IH]; intros entities; simpl; [lia |].
  specialize (IH (bind_span entities e)).
  change (size (bind_span entities e))
    with (size (<[label_ e := text e]> entities)) in IH.
  rewrite map_size_insert in IH.
  destruct (entities !! label_ e); simpl in IH; lia.
Qed.

(** X13: the map of [perform_ner] binds exactly the tags that the tagger
    found in the text, each to the text of one of the spans carrying that
    tag, so it never has more entries than there are spans. *)
Theorem perform_ner_bindings {E : Env} (txt label : string) :
  (forall span : string,
      perform_ner txt !! label = Some span ->
      In {| label_ := label; text := span |} (nlp txt))
  /\ ((exists span : string, In {| label_ := label; text := span |} (nlp txt))
      <-> is_Some (perform_ner txt !! label))
  /\ size (perform_ner txt) <= length (nlp txt).
Proof.
  unfold perform_ner.
  change (fun entities e => <[label_ e := text e]> entities) with bind_span.
  split; [| split; [split |]].
  - intros span H. apply foldl_bind_span_some in H as [H | H]; [| exact H].
    rewrite lookup_empty in H. discriminate H.
  - intros [span Hin].
    apply (foldl_bind_span_binds {| label_ := label; text := span |} _ Hin).
  - intros [span H]. exists span.
    apply foldl_bind_span_some in H as [H | H]; [| exact H].
    rewrite lookup_empty in H. discriminate H.
  - pose proof (foldl_bind_span_size (nlp txt) ∅) as H.
    rewrite map_size_empty in H. exact H.
Qed.

Lemma classify_query_career_label_witness :
  contains "job" (lower "What JOB does {entity} hold?") = true.
Proof. apply classify_query_career_label. reflexivity. Defined.

(** X15: the label is "Miscellaneous" exactly when the lower-cased
    template contains none of the keywords of the rules. *)
Theorem classify_query_miscellaneous_iff (query : string) :
  classify_query query = "Miscellaneous"
  <-> existsb (fun keyword => contains keyword (lower query)) keywords = false.
Proof.
  unfold classify_query, keywords. cbn [existsb].
  generalize (lower query). intros ql.
  split.
  - intros H.
    repeat match type of H with
           | context [if ?b then _ else _] =>
               let Hb := fresh "Hb" in
               destruct b eqn:Hb; [discriminate H |]
           end.
    repeat match goal with
           | Hk : _ || _ = false |- _ => apply orb_false_iff in Hk as [? ?]
           end.
    repeat match goal with
           | Hk : contains _ ql = false |- _ => rewrite Hk; clear Hk
           end.
    reflexivity.
  - intros H.
    repeat match goal with
           | Hk : _ || _ = false |- _ => apply orb_false_iff in Hk as [? ?]
           end.
    repeat match goal with
           | Hk : contains _ ql = false |- _ => rewrite Hk; clear Hk
           end.
    reflexivity.
Qed.

(** ** The loop over the entities, further *)

Section Loop.
Context {E : Env}.

Lemma safe_api_call_no_raise {A} (api_function : M A) (s s' : state) (e : exn) :
  safe_api_call api_function s = (Raise e, s') -> False.
Proof.
  intros Hraise.
  destruct (safe_api_loop_returns api_function (range App.MAX_RETRIES) s)
    as (r & s1 & Hreturn).
  unfold safe_api_call in Hraise. rewrite Hreturn in Hraise. discriminate Hraise.
Qed.

(** What a turn of the loop that returns has done. *)
Lemma process_entity_returns (query_template entity : string)
  (results results' : list row) (s s' : state) :
  process_entity query_template entity results s = (Return results', s') ->
  exists (r : row) (s1 : state),
    results' = results ++ [r]
    /\ Entity r = entity
    /\ NER_Results r = perform_ner entity
    /\ Query_Type r = classify_query query_template
    /\ s' = snd (sleep RATE_LIMIT_DELAY s1).
Proof.
  unfold process_entity. intros H.
  destruct (safe_api_call (search_entity_info entity) s)
    as [[web_result | e] s1] eqn:Hsearch;
    [rewrite (bind_return _ _ _ _ _ Hsearch) in H
    | rewrite (bind_raise _ _ _ _ _ Hsearch) in H; discriminate H].
  destruct web_result as [[| first others] |].
  - injection H as <- <-. eexists _, s1. repeat split.
  - unfold mbind at 1, M_bind at 1 in H.
    unfold mbind at 1, M_bind at 1 in H. unfold lift at 1 in H.
    destruct (preprocess_search_results (VList (first :: others)))
      as [pre | e]; [| discriminate H].
    unfold mbind at 1, M_bind at 1 in H.
    destruct (safe_api_call _ s1) as [[extracted_info | e] s2];
      [| discriminate H].
    injection H as <- <-. eexists _, s2. repeat split.
  - injection H as <- <-. eexists _, s1. repeat split.
Qed.

End Loop.

(** X16: a run that returns has appended exactly one row per entity, in
    the order of the entities, each with the NER results of its entity and
    the query type of the template. *)
Theorem run_loop_rows {E : Env} (query_template : string)
  (entities : list string) (results out : list row) (s s' : state) :
  run_loop query_template entities results s = (Return out, s') ->
  exists rows : list row,
    out = results ++ rows
    /\ map Entity rows = entities
    /\ Forall (fun r => NER_Results r = perform_ner (Entity r)
                        /\ Query_Type r = classify_query query_template) rows.
Proof.
  revert results s.
  induction entities as [| entity rest IH]; intros results s H.
  - injection H as <- _. exists []. rewrite app_nil_r. repeat split. constructor.
  - cbn [run_loop] in H.
    destruct (process_entity query_template entity results s)
      as [[results' | e] s1] eqn:Hturn;
      [rewrite (bind_return _ _ _ _ _ Hturn) in H
      | rewrite (bind_raise _ _ _ _ _ Hturn) in H; discriminate H].
    apply process_entity_returns in Hturn
      as (r & s0 & -> & Hentity & Hner & Htype & _).
    apply IH in H as (rows & -> & Hentities & Hrows).
    exists (r :: rows). rewrite <- app_assoc. split; [reflexivity |].
    split; [simpl; rewrite Hentity, Hentities; reflexivity |].
    constructor; [rewrite Hentity; auto | exact Hrows].
Qed.

Lemma run_loop_rows_witness :
  exists rows : list row,
    fst (@run Scripted.env "Extract the net worth of {entity}"
           ["Acme Corp"; "Initech"]
           (Scripted.start ([Return (Scripted.organic 1)], [Return [Some "12"]])))
    = Return rows
    /\ map Entity rows = ["Acme Corp"; "Initech"].
Proof.
  pose (s := Scripted.start ([Return (Scripted.organic 1)], [Return [Some "12"]])).
  pose (template := "Extract the net worth of {entity}").
  destruct (@run_loop_rows Scripted.env template ["Acme Corp"; "Initech"] []
              (match fst (@run Scripted.env template ["Acme Corp"; "Initech"] s) with
               | Return rows => rows
               | Raise _ => []
               end)
              s (snd (@run Scripted.env template ["Acme Corp"; "Initech"] s))
              eq_refl)
    as (rows & Hout & Hentities & _).
  exists rows. split; [| exact Hentities].
  simpl in Hout. rewrite <- Hout. reflexivity.
Defined.

(** X17: when the search step of a turn found hits and the preprocessor
    raises on them (it is called outside [safe_api_call]), the turn raises
    that exception and the whole run ends with it: the rows gathered so far
    are not returned, the remaining entities are not processed and the
    rate-limit sleep is skipped. *)
Theorem run_aborted_by_preprocessor {E : Env} (query_template entity : string)
  (rest : list string) (results : list row) (s s1 : state)
  (first : pyval) (others : list pyval) (e : exn) :
  safe_api_call (search_entity_info entity) s
  = (Return (Some (first :: others)), s1) ->
  preprocess_search_results (VList (first :: others)) = Raise e ->
  process_entity query_template entity results s = (Raise e, s1)
  /\ run_loop query_template (entity :: rest) results s = (Raise e, s1).
Proof.
  intros Hsearch Hpre.
  assert (Hturn : process_entity query_template entity results s = (Raise e, s1)).
  { unfold process_entity. rewrite (bind_return _ _ _ _ _ Hsearch).
    unfold mbind at 1, M_bind at 1.
    unfold mbind at 1, M_bind at 1. unfold lift at 1. rewrite Hpre. reflexivity. }
  split; [exact Hturn |].
  cbn [run_loop]. apply (bind_raise _ _ _ _ _ Hturn).
Qed.

Lemma run_aborted_by_preprocessor_witness :
  fst (@run Scripted.env "Extract the net worth of {entity}"
         ["Acme Corp"; "Initech"]
         (Scripted.start
            ([Return [("organic_results",
                       VList [VDict [("title", VStr "Acme"); ("snippet", VNone)]])]],
             [])))
  = Raise (AttributeError "NoneType" "strip").
Proof.
  pose (s := Scripted.start
               ([Return [("organic_results",
                          VList [VDict [("title", VStr "Acme"); ("snippet", VNone)]])]],
                [])).
  pose (template := "Extract the net worth of {entity}").
  destruct (@run_aborted_by_preprocessor Scripted.env template "Acme Corp"
              ["Initech"] [] s
              (snd (safe_api_call (@search_entity_info Scripted.env "Acme Corp") s))
              (VDict [("title", VStr "Acme"); ("url", VStr "N/A");
                      ("snippet", VNone)])
              [] (AttributeError "NoneType" "strip") eq_refl eq_refl)
    as [_ Habort].
  unfold run. fold s. fold template. rewrite Habort. reflexivity.
Defined.

Section BlankAnswer.

Lemma lstrip_all_space (s : string) : all_space s = true -> lstrip s = EmptyString.
Proof.
  induction s as [| c s IH]; [reflexivity |]. simpl.
  intros H. apply andb_true_iff in H as [Hc Hs]. rewrite Hc. exact (IH Hs).
Qed.

Lemma all_space_append (s t : string) :
  all_space (s +:+ t) = all_space s && all_space t.
Proof.
  induction s as [| c s IH]; [reflexivity |].
  rewrite append_cons. simpl. rewrite IH, andb_assoc. reflexivity.
Qed.

Lemma strip_empty_iff (s : string) :
  strip s = EmptyString <-> all_space s = true.
Proof.
  split.
  - intros Hempty. destruct (strip_trim_of s) as (pre & suf & Hs & Hpre & Hsuf & _).
    rewrite Hempty, append_nil_l in Hs.
    rewrite Hs, all_space_append, Hpre, Hsuf. reflexivity.
  - intros Hall. unfold strip. rewrite (lstrip_all_space s Hall). reflexivity.
Qed.

Lemma or_failed_answer (content : string) :
  or_failed (Some (Some (strip content)))
  = if all_space content then "Failed to extract" else strip content.
Proof.
  unfold or_failed.
  destruct (all_space content) eqn:Hall.
  - rewrite (proj2 (strip_empty_iff content) Hall). reflexivity.
  - destruct (String.eqb (strip content) EmptyString) eqn:Heq; [| reflexivity].
    apply String.eqb_eq, strip_empty_iff in Heq. congruence.
Qed.

End BlankAnswer.

(** X18: when the search step found hits and the model answers the first
    call, the row records the first choice of the answer with the
    whitespace around it removed, next to the joined titles, urls and
    snippets; an answer of whitespace only (or empty) is recorded as
    "Failed to extract". *)
Theorem first_answer_recorded {E : Env} (query_template entity : string)
  (results : list row) (s s1 : state) (first : pyval) (others : list pyval)
  (preprocessed_results : list hit) (content : string)
  (other_choices : list (option string)) (w2 : World) :
  let query_type := classify_query query_template in
  let request :=
    chat_request_of (prompt_of (generate_query entity query_template) entity
                               query_type (search_context_of preprocessed_results)) in
  safe_api_call (search_entity_info entity) s
  = (Return (Some (first :: others)), s1) ->
  preprocess_search_results (VList (first :: others))
  = Return preprocessed_results ->
  groq_client GROQ_API_KEY = Return tt ->
  groq_create request (world s1) = (Return (Some content :: other_choices), w2) ->
  process_entity query_template entity results s
  = (Return (results ++
             [{| Entity := entity;
                 Extracted_Information :=
                   if all_space content then "Failed to extract" else strip content;
                 Search_Title := join ", " (map title preprocessed_results);
                 Search_URL := join ", " (map url preprocessed_results);
                 Search_Snippet := join ", " (map snippet preprocessed_results);
                 NER_Results := perform_ner entity;
                 Query_Type := query_type |}]),
     {| world := w2;
        trace := trace s1 ++ [EvChat request; EvSleep RATE_LIMIT_DELAY] |}).
Proof.
  intros query_type request Hsearch Hpre Hclient Hanswer.
  assert (Hattempt :
            extract_attempt
              (prompt_of (generate_query entity query_template) entity
                         query_type (search_context_of preprocessed_results)) s1
            = (Return (strip content),
               {| world := w2; trace := trace s1 ++ [EvChat request] |})).
  { unfold extract_attempt, mbind, M_bind, chat_completions_create, lift.
    fold request. rewrite Hanswer. reflexivity. }
  assert (Hextract :
            safe_api_call (extract_information_with_groq entity preprocessed_results
                             query_template query_type) s1
            = (Return (Some (Some (strip content))),
               {| world := w2; trace := trace s1 ++ [EvChat request] |})).
  { unfold safe_api_call. change (range App.MAX_RETRIES) with [0; 1; 2]%nat.
    apply safe_api_loop_success.
    rewrite (extract_information_with_groq_run _ _ _ _ _ Hclient).
    change (range DataProcessing.MAX_RETRIES) with [0; 1; 2]%nat.
    apply (extract_loop_return _ _ _ _ _ _ Hattempt). }
  rewrite (process_entity_found query_template entity results s s1 _ first others
             preprocessed_results _ Hsearch Hpre Hextract).
  unfold found_row. rewrite or_failed_answer.
  simpl. rewrite <- app_assoc. reflexivity.
Qed.

Lemma first_answer_recorded_witness :
  let template := "Extract the net worth of {entity}" in
  fst (@process_entity Scripted.env template "Acme Corp" []
         (Scripted.start ([Return (Scripted.organic 1)],
                          [Return [Some ("  " +:+ nl); Some "ignored"]])))
  = Return [{| Entity := "Acme Corp";
               Extracted_Information := "Failed to extract";
               Search_Title := "N/A";
               Search_URL := "http://example.org";
               Search_Snippet := "N/A";
               NER_Results := @perform_ner Scripted.env "Acme Corp";
               Query_Type := "Net Worth" |}].
Proof.
  intros template.
  pose (s := Scripted.start ([Return (Scripted.organic 1)],
                             [Return [Some ("  " +:+ nl); Some "ignored"]])).
  pose (raw := VDict [("title", VStr "N/A"); ("url", VStr "http://example.org");
                      ("snippet", VStr "N/A")]).
  fold s.
  rewrite (@first_answer_recorded Scripted.env template "Acme Corp" [] s
             (snd (safe_api_call (@search_entity_info Scripted.env "Acme Corp") s))
             raw [] [Hit "N/A" "http://example.org" "N/A"]
             ("  " +:+ nl) [Some "ignored"] ([], [])
             eq_refl eq_refl eq_refl eq_refl).
  reflexivity.
Defined.

(** ** The sheet id of a URL *)

Module SheetId.
Import Sheets.

Lemma re_search_unfold (url : string) :
  re_search url
  = match match_here url with
    | Some id => Some id
    | None =>
        match url with
        | EmptyString => None
        | String _ rest => re_search rest
        end
    end.
Proof. destruct url; reflexivity. Qed.

Lemma take_id_split (s : string) :
  exists after,
    s = take_id s +:+ after
    /\ all_id_chars (take_id s) = true
    /\ starts_with_id_char after = false.
Proof.
  induction s as [| c s (after & Hs & Hid & Hafter)].
  - exists EmptyString. auto.
  - simpl. destruct (is_id_char c) eqn:Hc.
    + exists after. rewrite append_cons, <- Hs. simpl. rewrite Hc, Hid. auto.
    + exists (String c s). simpl. rewrite Hc. auto.
Qed.

Lemma take_id_append (id after : string) :
  all_id_chars id = true ->
  starts_with_id_char after = false ->
  take_id (id +:+ after) = id.
Proof.
  intros Hid Hafter. induction id as [| c id IH].
  - rewrite append_nil_l. destruct after as [| a after]; [reflexivity |].
    simpl in *. rewrite Hafter. reflexivity.
  - simpl in Hid. apply andb_true_iff in Hid as [Hc Hid].
    rewrite append_cons. simpl. rewrite Hc, (IH Hid). reflexivity.
Qed.

Lemma startswith_drop (sub s : string) :
  startswith sub s = true -> s = sub +:+ drop (String.length sub) s.
Proof.
  revert s. induction sub as [| a sub IH]; intros s H; [reflexivity |].
  destruct s as [| b s]; [discriminate H |].
  simpl in H. apply andb_true_iff in H as [Hab Hrest].
  apply Ascii.eqb_eq in Hab. subst b.
  rewrite append_cons. simpl. f_equal. apply IH, Hrest.
Qed.

Lemma match_here_some (s id : string) :
  match_here s = Some id ->
  exists after,
    s = "/d/" +:+ id +:+ after
    /\ id <> EmptyString
    /\ all_id_chars id = true
    /\ starts_with_id_char after = false.
Proof.
  unfold match_here.
  destruct (startswith "/d/" s) eqn:Hstart; [| discriminate].
  apply startswith_drop in Hstart. change (String.length "/d/") with 3 in Hstart.
  destruct (take_id_split (drop 3 s)) as (after & Hs & Hid & Hafter).
  destruct (take_id (drop 3 s)) as [| c t] eqn:Htake; [discriminate |].
  intros H. injection H as <-.
  exists after. split; [rewrite <- Hs; exact Hstart |].
  split; [discriminate |]. split; assumption.
Qed.

(** Within [before], a look at three characters does not see past the
    ["/d"] that follows. *)
Lemma startswith_slash_d (c : ascii) (b rest : string) :
  startswith "/d/" (String c (b +:+ "/d/" +:+ rest))
  = startswith "/d/" (String c (b +:+ "/d")).
Proof. destruct b as [| c2 [| c3 b]]; reflexivity. Qed.

Lemma re_search_some (url id : string) :
  re_search url = Some id ->
  exists before after : string,
    url = before +:+ "/d/" +:+ id +:+ after
    /\ id <> EmptyString
    /\ all_id_chars id = true
    /\ starts_with_id_char after = false.
Proof.
  induction url as [| c url IH]; intros Hsearch;
    rewrite re_search_unfold in Hsearch.
  - discriminate Hsearch.
  - destruct (match_here (String c url)) as [here |] eqn:Hhere.
    + injection Hsearch as ->.
      apply match_here_some in Hhere as (after & Hurl & Hrest).
      exists EmptyString, after. rewrite append_nil_l. split; assumption.
    + destruct (IH Hsearch) as (before & after & -> & Hrest).
      exists (String c before), after. rewrite append_cons.
      split; [reflexivity | exact Hrest].
Qed.

Lemma re_search_finds (before rest : string) (c : ascii) :
  is_id_char c = true ->
  re_search (before +:+ "/d/" +:+ String c rest) <> None.
Proof.
  intros Hc. induction before as [| b before IH]; rewrite re_search_unfold.
  - rewrite append_nil_l. unfold match_here.
    change (startswith "/d/" ("/d/" +:+ String c rest)) with true.
    change (drop 3 ("/d/" +:+ String c rest)) with (String c rest).
    simpl. rewrite Hc. discriminate.
  - rewrite append_cons.
    destruct (match_here (String b (before +:+ "/d/" +:+ String c rest)));
      [discriminate | exact IH].
Qed.

End SheetId.

(** X19: the id that [extract_sheet_id] returns is a non-empty run of
    letters, digits, "-" and "_" that follows "/d/" in the URL, taken as far
    as it goes. *)
Theorem extract_sheet_id_found (url id : string) :
  Sheets.extract_sheet_id url = Sheets.Done id ->
  exists before after : string,
    url = before +:+ "/d/" +:+ id +:+ after
    /\ id <> EmptyString
    /\ all_id_chars id = true
    /\ starts_with_id_char after = false.
Proof.
  unfold Sheets.extract_sheet_id.
  destruct (Sheets.re_search url) as [found |] eqn:Hsearch; [| discriminate].
  intros H. injection H as ->.
  apply SheetId.re_search_some, Hsearch.
Qed.

Lemma extract_sheet_id_found_witness :
  exists before after : string,
    "https://docs.google.com/spreadsheets/d/1aB-c_9/edit#gid=0"
    = before +:+ "/d/" +:+ "1aB-c_9" +:+ after
    /\ "1aB-c_9" <> EmptyString
    /\ all_id_chars "1aB-c_9" = true
    /\ starts_with_id_char after = false.
Proof.
  apply (extract_sheet_id_found
           "https://docs.google.com/spreadsheets/d/1aB-c_9/edit#gid=0" "1aB-c_9").
  reflexivity.
Defined.

(** X20: a URL made of a part without a match, "/d/", a non-empty id of
    id characters and a rest that does not go on with an id character gives
    back that id. *)
Theorem extract_sheet_id_round_trip (before id after : string) :
  contains "/d/" (before +:+ "/d") = false ->
  id <> EmptyString ->
  all_id_chars id = true ->
  starts_with_id_char after = false ->
  Sheets.extract_sheet_id (before +:+ "/d/" +:+ id +:+ after) = Sheets.Done id.
Proof.
  intros Hbefore Hid Hchars Hafter. unfold Sheets.extract_sheet_id.
  assert (Hsearch : Sheets.re_search (before +:+ "/d/" +:+ id +:+ after) = Some id).
  { induction before as [| c before IH]; rewrite SheetId.re_search_unfold.
    - rewrite append_nil_l. unfold Sheets.match_here.
      change (startswith "/d/" ("/d/" +:+ id +:+ after)) with true.
      change (Sheets.drop 3 ("/d/" +:+ id +:+ after)) with (id +:+ after).
      rewrite (SheetId.take_id_append id after Hchars Hafter).
      destruct id; [contradiction | reflexivity].
    - rewrite append_cons in Hbefore. rewrite contains_cons in Hbefore.
      apply orb_false_iff in Hbefore as [Hhere Hlater].
      rewrite append_cons. unfold Sheets.match_here.
      rewrite SheetId.startswith_slash_d, Hhere. apply IH, Hlater. }
  rewrite Hsearch. reflexivity.
Qed.

Lemma extract_sheet_id_round_trip_witness :
  Sheets.extract_sheet_id
    ("https://docs.google.com/spreadsheets" +:+ "/d/" +:+ "1aB-c_9" +:+ "/edit")
  = Sheets.Done "1aB-c_9".
Proof.
  apply extract_sheet_id_round_trip; [reflexivity | discriminate | reflexivity | reflexivity].
Defined.

(** X21: [extract_sheet_id] raises, and then ValueError, exactly when no
    "/d/" of the URL is followed by a letter, a digit, "-" or "_". *)
Theorem extract_sheet_id_fails_iff (url : string) :
  (Sheets.extract_sheet_id url
   = Sheets.Fail (Sheets.ValueError
                    "Invalid Google Sheets URL. Could not extract Sheet ID.")
   <-> ~ exists (before rest : string) (c : ascii),
         url = before +:+ "/d/" +:+ String c rest
         /\ Sheets.is_id_char c = true)
  /\ (forall e : Sheets.error,
         Sheets.extract_sheet_id url = Sheets.Fail e ->
         e = Sheets.ValueError
               "Invalid Google Sheets URL. Could not extract Sheet ID.").
Proof.
  unfold Sheets.extract_sheet_id.
  destruct (Sheets.re_search url) as [id |] eqn:Hsearch.
  - split; [split |]; try discriminate.
    intros Hnone. exfalso. apply Hnone.
    apply SheetId.re_search_some in Hsearch
      as (before & after & -> & Hid & Hchars & _).
    destruct id as [| c id]; [contradiction |].
    simpl in Hchars. apply andb_true_iff in Hchars as [Hc _].
    exists before, (id +:+ after), c. rewrite append_cons. auto.
  - split; [split; [| reflexivity] |].
    + intros _ (before & rest & c & -> & Hc).
      exact (SheetId.re_search_finds before rest c Hc Hsearch).
    + intros e H. injection H as <-. reflexivity.
Qed.

(** ** Credentials and upload *)

Module SheetsIO.
Import Sheets.

Section WithEnv.
Context {E : Env}.

Lemma bind_done {A B} (m : M A) (k : A -> M B) (s s' : state) (a : A) :
  m s = (Done a, s') -> (m ≫= k) s = k a s'.
Proof. unfold mbind, M_bind. intros ->. reflexivity. Qed.

Lemma bind_fail {A B} (m : M A) (k : A -> M B) (s s' : state) (e : error) :
  m s = (Fail e, s') -> (m ≫= k) s = (Fail e, s').
Proof. unfold mbind, M_bind. intros ->. reflexivity. Qed.

Lemma bind_emit {B} (ev : event) (k : unit -> M B) (s : state) :
  (emit ev ≫= k) s = k tt (logged s [ev]).
Proof. reflexivity. Qed.

(** The [try] block of the upload swallows what it catches. *)
Lemma upload_values_run (c : creds) (f : frame) (id range : string) (s : state) :
  upload_values c f id range s
  = match build c (world s) with
    | (Fail e, w1) =>
        (Done tt, {| world := w1;
                     log := log s ++ [Built; StError (ErrorUploading e)] |})
    | (Done svc, w1) =>
        match update_execute svc id range (values_of f) w1 with
        | (Fail e, w2) =>
            (Done tt,
             {| world := w2;
                log := log s ++ [Built; Print "[INFO] 11"; Print "[INFO] 12";
                                 Updated id range (values_of f);
                                 StError (ErrorUploading e)] |})
        | (Done _, w2) =>
            (Done tt,
             {| world := w2;
                log := log s ++ [Built; Print "[INFO] 11"; Print "[INFO] 12";
                                 Updated id range (values_of f);
                                 Print "[INFO] 13";
                                 StSuccess (DataUploaded id)] |})
        end
    end.
Proof.
  unfold upload_values, try_except, mbind, M_bind, call, print, st_success,
    st_error, emit. simpl.
  destruct (build c (world s)) as [[svc | e] w1]; simpl.
  - destruct (update_execute svc id range (values_of f) w1) as [[[] | e] w2];
      simpl; rewrite <- !app_assoc; reflexivity.
  - rewrite <- !app_assoc; reflexivity.
Qed.

Lemma upload_values_done (c : creds) (f : frame) (id range : string) (s : state) :
  fst (upload_values c f id range s) = Done tt.
Proof.
  rewrite upload_values_run.
  destruct (build c (world s)) as [[svc | e] w1]; [| reflexivity].
  destruct (update_execute svc id range (values_of f) w1) as [[[] | e] w2];
    reflexivity.
Qed.

(** The upload behind the checks of [safe_upload_to_google_sheet]. *)
Lemma safe_upload_run (f : frame) (sheet_url : string) (s : state) :
  empty f = false ->
  sheet_url <> EmptyString ->
  safe_upload_to_google_sheet (Some f) sheet_url s
  = match extract_sheet_id sheet_url with
    | Fail e =>
        (Done false,
         logged s [Print "[INFO] 4"; Print "[INFO] 5";
                   StError (UploadFailed e); StError (Traceback e)])
    | Done id =>
        match upload_credentials
                (logged s [Print "[INFO] 4"; Print "[INFO] 5"; Print "[INFO] 6"]) with
        | (Fail e, s1) =>
            (Done false, logged s1 [StError (UploadFailed e); StError (Traceback e)])
        | (Done c, s1) =>
            (Done true,
             logged (snd (upload_values c f id "Sheet1!A1" s1))
                    [Print "[INFO] 7"; StSuccess SuccessfullyUploaded])
        end
    end.
Proof.
  intros Hdata Hurl. apply String.eqb_neq in Hurl.
  unfold safe_upload_to_google_sheet. rewrite Hdata, Hurl.
  unfold upload_to_google_sheet, logged, try_except, mbind, M_bind, mret, M_ret,
    print, st_error, st_success, emit.
  simpl. rewrite <- !app_assoc. simpl.
  destruct (extract_sheet_id sheet_url) as [id | e]; simpl;
    [| rewrite <- ?app_assoc; reflexivity].
  destruct (upload_credentials _) as [[c | e] s1]; simpl;
    [| rewrite <- ?app_assoc; reflexivity].
  pose proof (upload_values_done c f id "Sheet1!A1" s1) as Hdone.
  destruct (upload_values c f id "Sheet1!A1" s1) as [r s2].
  simpl in Hdone. subst r. simpl. rewrite <- !app_assoc. reflexivity.
Qed.

Lemma safe_upload_no_data (dataframe : option frame) (sheet_url : string)
  (s : state) :
  match dataframe with Some f => empty f = true | None => True end ->
  safe_upload_to_google_sheet dataframe sheet_url s
  = (Done false, logged s [Print "[INFO] 4"; Print "[INFO] 5"; StError NoData]).
Proof.
  intros Hdata. unfold safe_upload_to_google_sheet.
  destruct dataframe as [f |]; [rewrite Hdata |];
    unfold logged, try_except, mbind, M_bind, mret, M_ret, print, st_error, emit;
    simpl; rewrite <- !app_assoc; reflexivity.
Qed.

Lemma safe_upload_no_url (f : frame) (s : state) :
  empty f = false ->
  safe_upload_to_google_sheet (Some f) EmptyString s
  = (Done false, logged s [Print "[INFO] 4"; Print "[INFO] 5"; StError NoUrl]).
Proof.
  intros Hdata. unfold safe_upload_to_google_sheet. rewrite Hdata.
  unfold logged, try_except, mbind, M_bind, mret, M_ret, print, st_error, emit.
  simpl. rewrite <- !app_assoc. reflexivity.
Qed.

End WithEnv.

(** X22: [safe_upload_to_google_sheet] never raises: whatever the data
    frame, the URL and the collaborators do, it returns True or False. *)
Theorem safe_upload_never_raises {E : Env} (dataframe : option frame)
  (sheet_url : string) (s : state) :
  forall (e : error) (s' : state),
    safe_upload_to_google_sheet dataframe sheet_url s <> (Fail e, s').
Proof.
  intros e s'.
  destruct dataframe as [f |];
    [| rewrite (safe_upload_no_data None sheet_url s I); discriminate].
  destruct (empty f) eqn:Hdata;
    [rewrite (safe_upload_no_data (Some f) sheet_url s Hdata); discriminate |].
  destruct (String.eqb_spec sheet_url EmptyString) as [-> | Hurl];
    [rewrite (safe_upload_no_url f s Hdata); discriminate |].
  rewrite (safe_upload_run f sheet_url s Hdata Hurl).
  destruct (extract_sheet_id sheet_url); [| discriminate].
  destruct (upload_credentials _) as [[c | e1] s1]; discriminate.
Qed.

(** X23: the checks come first: without a data frame or with an empty
    one, with an empty URL, or with a URL that holds no sheet id, the upload
    is refused with False and a notice on the dashboard, and neither the
    token file nor any Google service has been touched. *)
Theorem safe_upload_checks_first {E : Env} (dataframe : option frame)
  (sheet_url : string) (s : state) :
  (match dataframe with Some f => empty f = true | None => True end ->
   safe_upload_to_google_sheet dataframe sheet_url s
   = (Done false, logged s [Print "[INFO] 4"; Print "[INFO] 5"; StError NoData]))
  /\ (forall f : frame,
         dataframe = Some f -> empty f = false -> sheet_url = EmptyString ->
         safe_upload_to_google_sheet dataframe sheet_url s
         = (Done false, logged s [Print "[INFO] 4"; Print "[INFO] 5"; StError NoUrl]))
  /\ (forall (f : frame) (e : error),
         dataframe = Some f -> empty f = false -> sheet_url <> EmptyString ->
         extract_sheet_id sheet_url = Fail e ->
         safe_upload_to_google_sheet dataframe sheet_url s
         = (Done false,
            logged s [Print "[INFO] 4"; Print "[INFO] 5";
                      StError (UploadFailed e); StError (Traceback e)])).
Proof.
  split; [apply safe_upload_no_data |]. split.
  - intros f -> Hdata ->. apply safe_upload_no_url, Hdata.
  - intros f e -> Hdata Hurl Hid.
    rewrite (safe_upload_run f sheet_url s Hdata Hurl), Hid. reflexivity.
Qed.

Lemma safe_upload_checks_first_witness :
  let s := ScriptedSheets.start ScriptedSheets.quota_exceeded in
  @safe_upload_to_google_sheet ScriptedSheets.env None "https://x/d/abc" s
  = (Done false, logged s [Print "[INFO] 4"; Print "[INFO] 5"; StError NoData])
  /\ @safe_upload_to_google_sheet ScriptedSheets.env
       (Some ScriptedSheets.table) EmptyString s
     = (Done false, logged s [Print "[INFO] 4"; Print "[INFO] 5"; StError NoUrl])
  /\ fst (@safe_upload_to_google_sheet ScriptedSheets.env
            (Some ScriptedSheets.table) "https://example.org/sheet" s)
     = Done false.
Proof.
  intros s. split; [| split].
  - apply (@safe_upload_checks_first ScriptedSheets.env None "https://x/d/abc" s).
    exact I.
  - apply (proj1 (proj2 (@safe_upload_checks_first ScriptedSheets.env
                           (Some ScriptedSheets.table) EmptyString s))
                 ScriptedSheets.table); reflexivity.
  - rewrite (proj2 (proj2 (@safe_upload_checks_first ScriptedSheets.env
                             (Some ScriptedSheets.table)
                             "https://example.org/sheet" s))
                   ScriptedSheets.table
                   (ValueError "Invalid Google Sheets URL. Could not extract Sheet ID."));
      [reflexivity | reflexivity | reflexivity | discriminate | reflexivity].
Defined.

(** X24: [safe_upload_to_google_sheet] returns True exactly when the data
    frame is not empty, the URL is not empty and holds a sheet id, and the
    credentials were obtained; what the Sheets API then answers does not
    matter. *)
Theorem safe_upload_true_iff {E : Env} (dataframe : option frame)
  (sheet_url : string) (s s' : state) :
  safe_upload_to_google_sheet dataframe sheet_url s = (Done true, s')
  <-> exists (f : frame) (id : string) (c : creds) (s1 : state),
      dataframe = Some f
      /\ empty f = false
      /\ sheet_url <> EmptyString
      /\ extract_sheet_id sheet_url = Done id
      /\ upload_credentials
           (logged s [Print "[INFO] 4"; Print "[INFO] 5"; Print "[INFO] 6"])
         = (Done c, s1)
      /\ s' = logged (snd (upload_values c f id "Sheet1!A1" s1))
                     [Print "[INFO] 7"; StSuccess SuccessfullyUploaded].
Proof.
  split.
  - intros H.
    destruct dataframe as [f |];
      [| rewrite (safe_upload_no_data None sheet_url s I) in H; discriminate H].
    destruct (empty f) eqn:Hdata;
      [rewrite (safe_upload_no_data (Some f) sheet_url s Hdata) in H;
       discriminate H |].
    destruct (String.eqb_spec sheet_url EmptyString) as [-> | Hurl];
      [rewrite (safe_upload_no_url f s Hdata) in H; discriminate H |].
    rewrite (safe_upload_run f sheet_url s Hdata Hurl) in H.
    destruct (extract_sheet_id sheet_url) as [id | e]; [| discriminate H].
    destruct (upload_credentials _) as [[c | e1] s1] eqn:Hcreds;
      [| discriminate H].
    injection H as <-. exists f, id, c, s1. auto 10.
  - intros (f & id & c & s1 & -> & Hdata & Hurl & Hid & Hcreds & ->).
    rewrite (safe_upload_run f sheet_url s Hdata Hurl), Hid, Hcreds. reflexivity.
Qed.

(** X25: when the credentials are there and the Sheets API refuses the
    update, the error is shown on the dashboard, and then, all the same,
    "Successfully uploaded to Google Sheet!", and True is returned. *)
Theorem success_reported_after_failed_update {E : Env} (f : frame)
  (sheet_url id : string) (c : creds) (svc : Service) (e : error)
  (s s1 : state) (w2 w3 : World) :
  empty f = false ->
  sheet_url <> EmptyString ->
  extract_sheet_id sheet_url = Done id ->
  upload_credentials
    (logged s [Print "[INFO] 4"; Print "[INFO] 5"; Print "[INFO] 6"])
  = (Done c, s1) ->
  build c (world s1) = (Done svc, w2) ->
  update_execute svc id "Sheet1!A1" (values_of f) w2 = (Fail e, w3) ->
  safe_upload_to_google_sheet (Some f) sheet_url s
  = (Done true,
     {| world := w3;
        log := log s1 ++ [Built; Print "[INFO] 11"; Print "[INFO] 12";
                          Updated id "Sheet1!A1" (values_of f);
                          StError (ErrorUploading e);
                          Print "[INFO] 7"; StSuccess SuccessfullyUploaded] |}).
Proof.
  intros Hdata Hurl Hid Hcreds Hbuild Hupdate.
  rewrite (safe_upload_run f sheet_url s Hdata Hurl), Hid, Hcreds.
  rewrite upload_values_run, Hbuild, Hupdate.
  unfold logged. simpl. rewrite <- app_assoc. reflexivity.
Qed.

Lemma success_reported_after_failed_update_witness :
  let quota := LibraryError "quota exceeded" in
  let values := values_of ScriptedSheets.table in
  @safe_upload_to_google_sheet ScriptedSheets.env (Some ScriptedSheets.table)
    "https://docs.google.com/spreadsheets/d/1aB-c_9/edit"
    (ScriptedSheets.start ScriptedSheets.quota_exceeded)
  = (Done true,
     @State ScriptedSheets.env ScriptedSheets.quota_exceeded
       [Print "[INFO] 4"; Print "[INFO] 5"; Print "[INFO] 6"; Print "[INFO] 8";
        TokenLoaded; Print "[INFO] 9";
        Built; Print "[INFO] 11"; Print "[INFO] 12";
        Updated "1aB-c_9" "Sheet1!A1" values;
        StError (ErrorUploading quota);
        Print "[INFO] 7"; StSuccess SuccessfullyUploaded]).
Proof.
  intros quota values.
  apply (@success_reported_after_failed_update ScriptedSheets.env
           ScriptedSheets.table
           "https://docs.google.com/spreadsheets/d/1aB-c_9/edit" "1aB-c_9"
           ScriptedSheets.good tt quota
           (ScriptedSheets.start ScriptedSheets.quota_exceeded)
           (@State ScriptedSheets.env ScriptedSheets.quota_exceeded
              [Print "[INFO] 4"; Print "[INFO] 5"; Print "[INFO] 6";
               Print "[INFO] 8"; TokenLoaded; Print "[INFO] 9"])
           ScriptedSheets.quota_exceeded ScriptedSheets.quota_exceeded);
    first [reflexivity | discriminate].
Defined.

(** X26: [upload_to_google_sheet] raises only while it obtains the
    credentials, and then with that very exception; once it has them it
    always returns. *)
Theorem upload_raises_only_for_credentials {E : Env} (f : frame)
  (id range : string) (s s' : state) (e : error) :
  upload_to_google_sheet f id range s = (Fail e, s')
  <-> upload_credentials s = (Fail e, s').
Proof.
  unfold upload_to_google_sheet, mbind, M_bind.
  destruct (upload_credentials s) as [[c | e1] s1].
  - pose proof (upload_values_done c f id range s1) as Hdone.
    destruct (upload_values c f id range s1) as [r s2]. simpl in Hdone. subst r.
    split; discriminate.
  - split; intros H; injection H as <- <-; reflexivity.
Qed.

(** X27: [connect_to_google_sheet] raises nothing but ValueError: for a
    URL without a sheet id, before anything else is done; for any failure
    of the authentication or of the service, wrapped behind
    "Error connecting to Google Sheets: ".  When it returns, the id is the
    one [extract_sheet_id] finds in the URL. *)
Theorem connect_to_google_sheet_outcomes {E : Env} (sheet_url : string)
  (s s' : state) :
  (forall e : error,
      connect_to_google_sheet sheet_url s = (Fail e, s') ->
      (e = ValueError "Invalid Google Sheet URL. Could not extract spreadsheet ID."
       /\ s' = s /\ re_search sheet_url = None)
      \/ (exists cause : error,
             e = ValueErrorOf "Error connecting to Google Sheets: " cause
             /\ re_search sheet_url <> None))
  /\ (forall (service : Service) (id : string),
         connect_to_google_sheet sheet_url s = (Done (service, id), s') ->
         extract_sheet_id sheet_url = Done id).
Proof.
  unfold connect_to_google_sheet, extract_sheet_id.
  destruct (re_search sheet_url) as [found |].
  - unfold try_except, raise.
    destruct ((credentials ← authenticate_google;
               service ← call (build credentials) Built;
               mret (service, found)) s) as [[[svc id] | cause] s1] eqn:Hbody.
    + split; [intros e H; discriminate H |].
      intros service id0 H. injection H as <- <- <-.
      unfold mbind, M_bind, mret, M_ret, call in Hbody.
      destruct (authenticate_google s) as [[c | e1] s2]; [| discriminate Hbody].
      destruct (build c (world s2)) as [[svc0 | e2] w]; [| discriminate Hbody].
      injection Hbody as _ <- _. reflexivity.
    + split; [| intros service id H; discriminate H].
      intros e H. injection H as <- <-. right. exists cause.
      split; [reflexivity | discriminate].
  - split; [| intros service id H; discriminate H].
    intros e H. injection H as <- <-. left. auto.
Qed.

Lemma connect_to_google_sheet_outcomes_witness :
  fst (@connect_to_google_sheet ScriptedSheets.env
         "https://docs.google.com/spreadsheets/d/1aB-c_9/edit"
         (ScriptedSheets.start ScriptedSheets.no_consent))
  = Fail (ValueErrorOf "Error connecting to Google Sheets: "
                       (LibraryError "access denied")).
Proof.
  pose (s := ScriptedSheets.start ScriptedSheets.no_consent).
  pose (url := "https://docs.google.com/spreadsheets/d/1aB-c_9/edit").
  destruct (proj1 (@connect_to_google_sheet_outcomes ScriptedSheets.env url s
                     (snd (@connect_to_google_sheet ScriptedSheets.env url s)))
              (ValueErrorOf "Error connecting to Google Sheets: "
                            (LibraryError "access denied")) eq_refl)
    as [(Hbad & _) | (cause & Hcause & _)].
  - discriminate Hbad.
  - reflexivity.
Defined.

(** X28: when [authenticate_google] returns credentials, it has either
    loaded a valid token and done nothing else, or renewed the credentials
    (by a refresh of the loaded token, or by the interactive flow, never by
    both) and, as the last thing, written them to the token file. *)
Theorem authenticate_google_saves_renewed {E : Env} (s s' : state) (c : creds) :
  authenticate_google s = (Done c, s') ->
  (valid c = true /\ log s' = log s ++ [TokenLoaded])
  \/ log s' = log s ++ [TokenLoaded; Refreshed; TokenWritten (to_json c)]
  \/ log s' = log s ++ [TokenLoaded; FlowCreated; FlowRun; TokenWritten (to_json c)]
  \/ log s' = log s ++ [FlowCreated; FlowRun; TokenWritten (to_json c)].
Proof.
  unfold authenticate_google, installed_app_flow, save_token, path_exists_token,
    call, mbind, M_bind, mret, M_ret.
  simpl. intros H.
  destruct (token_exists (world s)); simpl in H.
  - destruct (from_authorized_user_file (world s)) as [[c0 | e0] w1]; simpl in H;
      [| discriminate H].
    destruct (valid c0) eqn:Hvalid; simpl in H.
    { injection H as <- <-. left. split; [exact Hvalid | reflexivity]. }
    destruct (expired c0 && has_refresh_token c0); simpl in H.
    + destruct (refresh c0 _) as [[c1 | e1] w2]; simpl in H; [| discriminate H].
      destruct (write_token (to_json c1) _) as [[[] | e2] w3]; simpl in H;
        [| discriminate H].
      injection H as <- <-. right. left. simpl. rewrite <- !app_assoc. reflexivity.
    + destruct (from_client_secrets_file _ _) as [[flow | e1] w2]; simpl in H;
        [| discriminate H].
      destruct (run_local_server flow _) as [[c1 | e2] w3]; simpl in H;
        [| discriminate H].
      destruct (write_token (to_json c1) _) as [[[] | e3] w4]; simpl in H;
        [| discriminate H].
      injection H as <- <-. right. right. left. simpl.
      rewrite <- !app_assoc. reflexivity.
  - destruct (from_client_secrets_file _ _) as [[flow | e1] w2]; simpl in H;
      [| discriminate H].
    destruct (run_local_server flow _) as [[c1 | e2] w3]; simpl in H;
      [| discriminate H].
    destruct (write_token (to_json c1) _) as [[[] | e3] w4]; simpl in H;
      [| discriminate H].
    injection H as <- <-. right. right. right. simpl.
    rewrite <- !app_assoc. reflexivity.
Qed.

Lemma authenticate_google_saves_renewed_witness :
  log (snd (@authenticate_google ScriptedSheets.env
              (ScriptedSheets.start ScriptedSheets.expired_token)))
  = [TokenLoaded; Refreshed; TokenWritten "{good}"].
Proof.
  destruct (@authenticate_google_saves_renewed ScriptedSheets.env
              (ScriptedSheets.start ScriptedSheets.expired_token)
              (snd (@authenticate_google ScriptedSheets.env
                      (ScriptedSheets.start ScriptedSheets.expired_token)))
              ScriptedSheets.good eq_refl)
    as [[_ H] | [H | [H | H]]]; first [exact H | discriminate H].
Defined.

End SheetsIO.
